(** * Crowdworker simulation: the task state machine and the environment

    A shallow embedding of [code/task.py], [code/user.py] and
    [code/userenv.py].  Python floats are modelled by exact rationals
    ([Q]), Python integers by [Z], the objects by records, the list of
    live [Task] objects by a list updated by position, and the numpy
    generator by an interface whose operations return the draw together
    with the advanced generator.  A Python exception is a value of [exn];
    the state reached when it is raised is returned with it. *)

From Stdlib Require Import ZArith QArith Lqa Lia String.
From stdpp Require Import base option list gmap strings pretty.

Local Open Scope Z_scope.

(** ** Python helpers *)

(** The exceptions the modelled code can raise. *)
Inductive exn : Type :=
| IndexError
| AssertionError
| AttributeError.

(** [a < b] and [a >= b] on floats. *)
Definition Qlt_bool (a b : Q) : bool := negb (Qle_bool b a).
Definition Qge_bool (a b : Q) : bool := Qle_bool b a.

(** The builtins [min(a, b)] and [max(a, b)]: the first argument is kept
    unless the second is strictly smaller (resp. strictly larger). *)
Definition py_min (a b : Q) : Q := if Qlt_bool b a then b else a.
Definition py_max (a b : Q) : Q := if Qlt_bool a b then b else a.

(** [l[i]] with Python's negative indices: the position read and the
    element, or [None] where Python raises [IndexError]. *)
Definition py_get {A : Type} (l : list A) (i : Z) : option (nat * A) :=
  let n := Z.of_nat (length l) in
  let k := if 0 <=? i then i else n + i in
  if (0 <=? k) && (k <? n) then
    match l !! Z.to_nat k with
    | Some x => Some (Z.to_nat k, x)
    | None => None
    end
  else None.

(** ** The random generator

    [numpy.random.Generator] as seen by the code: [default_rng(seed)],
    [random()], [integers(low, high)], [beta(a, b)] and [shuffle(list)].
    The generator object is mutated by every draw; here each operation
    returns the advanced generator.  The one law the environment relies
    on is that [shuffle] rearranges the list it is given. *)
Class Generator (G : Type) : Type := {
  default_rng : Z -> G;
  rng_random : G -> Q * G;
  rng_integers : Z -> Z -> G -> Z * G;
  rng_beta : Q -> Q -> G -> Q * G;
  rng_shuffle : list nat -> G -> list nat * G;
  rng_shuffle_perm : forall l g, (rng_shuffle l g).1 ≡ₚ l
}.

(** ** task.py *)

(** [class Instance] *)
Record Instance : Type := mkInstance {
  true_label : Z;
  label : option Z
}.

Definition Instance_init (true_label : Z) : Instance :=
  {| true_label := true_label; label := None |}.

(** [class TaskProperties] *)
Record TaskProperties : Type := mkTaskProperties {
  payout : Q;
  expertise : Q;
  effort : Q;
  interestingness : Q;
  target_num_instances : Q;
  num_classes : Z
}.

Definition TaskProperties_init (payout expertise effort interestingness
                                target_num_instances : Q) : TaskProperties :=
  {| payout := payout; expertise := expertise; effort := effort;
     interestingness := interestingness;
     target_num_instances := target_num_instances;
     num_classes := 10 |}.

(** [class AntiCheatSettings] *)
Record AntiCheatSettings : Type := mkAntiCheatSettings {
  qa_false_max : Z;
  qa_mode_prob : Q;
  reputation_punishment : Q;
  reputation_bonus : Q;
  min_reputation : Q
}.

(** The task-givers: the subclasses of [TaskPropertiesDistribution] that
    define [create_properties]. *)
Inductive TaskPropertiesDistribution : Type :=
| TaskPropertiesBetaDistribution
| TaskPropertiesCustomBetaDistribution
    (payout expertise effort interestingness target_num_instances : Q * Q)
    (target_num_instances_scale : Q)
| TaskPropertiesCustomFixedDistribution
    (payout expertise effort interestingness target_num_instances : Q).

Definition create_properties {G : Type} `{Generator G}
    (self : TaskPropertiesDistribution) (random : G) : TaskProperties * G :=
  match self with
  | TaskPropertiesBetaDistribution =>
      let '(p, g) := rng_beta 10 10 random in
      let '(x, g) := rng_beta 40 10 g in
      let '(f, g) := rng_beta 10 10 g in
      let '(i, g) := rng_beta 10 10 g in
      let '(n, g) := rng_beta 10 10 g in
      (TaskProperties_init p x f (i - (1 # 2)) (n * 100), g)
  | TaskPropertiesCustomBetaDistribution pp px pf pi pn scale =>
      let '(p, g) := rng_beta (fst pp) (snd pp) random in
      let '(x, g) := rng_beta (fst px) (snd px) g in
      let '(f, g) := rng_beta (fst pf) (snd pf) g in
      let '(i, g) := rng_beta (fst pi) (snd pi) g in
      let '(n, g) := rng_beta (fst pn) (snd pn) g in
      (TaskProperties_init p x f (i - (1 # 2)) (n * scale), g)
  | TaskPropertiesCustomFixedDistribution p x f i n =>
      (TaskProperties_init p x f (i - (1 # 2)) n, random)
  end.

(** [Task.QUALITY_CONTROL_MODE] and [Task.LABEL_MODE] *)
Inductive Mode : Type :=
| QUALITY_CONTROL_MODE
| LABEL_MODE.

(** [class Task] *)
Module Task.

Record t : Type := mk {
  properties : TaskProperties;
  anti_cheat_settings : AntiCheatSettings;
  mode : option Mode;
  current_instance : option Instance;
  instance_counter : Z;
  real_instance_counter : Z;
  qa_false_counter : Z;
  last_response_type : string
}.

Definition init (properties : TaskProperties)
                (anti_cheat_settings : AntiCheatSettings) : t :=
  {| properties := properties;
     anti_cheat_settings := anti_cheat_settings;
     mode := None;
     current_instance := None;
     instance_counter := 0;
     real_instance_counter := 0;
     qa_false_counter := 0;
     last_response_type := "not-set" |}.

Definition set_mode (v : option Mode) (s : t) : t :=
  mk (properties s) (anti_cheat_settings s) v (current_instance s)
     (instance_counter s) (real_instance_counter s) (qa_false_counter s)
     (last_response_type s).
Definition set_current_instance (v : option Instance) (s : t) : t :=
  mk (properties s) (anti_cheat_settings s) (mode s) v
     (instance_counter s) (real_instance_counter s) (qa_false_counter s)
     (last_response_type s).
Definition set_instance_counter (v : Z) (s : t) : t :=
  mk (properties s) (anti_cheat_settings s) (mode s) (current_instance s)
     v (real_instance_counter s) (qa_false_counter s)
     (last_response_type s).
Definition set_real_instance_counter (v : Z) (s : t) : t :=
  mk (properties s) (anti_cheat_settings s) (mode s) (current_instance s)
     (instance_counter s) v (qa_false_counter s) (last_response_type s).
Definition set_qa_false_counter (v : Z) (s : t) : t :=
  mk (properties s) (anti_cheat_settings s) (mode s) (current_instance s)
     (instance_counter s) (real_instance_counter s) v
     (last_response_type s).
Definition set_last_response_type (v : string) (s : t) : t :=
  mk (properties s) (anti_cheat_settings s) (mode s) (current_instance s)
     (instance_counter s) (real_instance_counter s) (qa_false_counter s) v.

(** [receive_answer]: the task after the call (the counters are
    incremented before the instance is read) and either the exception
    raised or the reputation change returned. *)
Definition receive_answer (self : t) (answer : Z) : t * (exn + Q) :=
  match mode self with
  | None => (self, inl AssertionError)
  | Some m =>
      let self := set_instance_counter (instance_counter self + 1) self in
      match m with
      | QUALITY_CONTROL_MODE =>
          match current_instance self with
          | None => (self, inl AttributeError)
          | Some inst =>
              if negb (answer =? true_label inst) then
                let self :=
                  set_qa_false_counter (qa_false_counter self + 1) self in
                (set_last_response_type "qa_incorrect" self,
                 inr (reputation_punishment (anti_cheat_settings self)))
              else
                (set_last_response_type "qa_correct" self,
                 inr (reputation_bonus (anti_cheat_settings self)))
          end
      | LABEL_MODE =>
          let self :=
            set_real_instance_counter (real_instance_counter self + 1) self in
          match current_instance self with
          | None => (self, inl AttributeError)
          | Some inst =>
              if negb (answer =? true_label inst) then
                (set_last_response_type "incorrect" self, inr 0%Q)
              else
                (set_last_response_type "correct" self, inr 0%Q)
          end
      end
  end.

(** [get_next_known_answer_instance] and [get_next_unlabeled_instance] *)
Definition get_next_known_answer_instance {G : Type} `{Generator G}
    (self : t) (random : G) : Instance * G :=
  let '(l, g) := rng_integers 0 (num_classes (properties self)) random in
  (Instance_init l, g).

Definition get_next_unlabeled_instance {G : Type} `{Generator G}
    (self : t) (random : G) : Instance * G :=
  get_next_known_answer_instance self random.

(** [give_new_instance] *)
Definition give_new_instance {G : Type} `{Generator G}
    (self : t) (random : G) : t * G :=
  let '(u, g) := rng_random random in
  if Qlt_bool u (qa_mode_prob (anti_cheat_settings self)) then
    let self := set_mode (Some QUALITY_CONTROL_MODE) self in
    let '(inst, g) := get_next_known_answer_instance self g in
    (set_current_instance (Some inst) self, g)
  else
    let self := set_mode (Some LABEL_MODE) self in
    let '(inst, g) := get_next_unlabeled_instance self g in
    (set_current_instance (Some inst) self, g).

(** [is_active] *)
Definition is_active (self : t) (current_user_reputation : Q) : bool :=
  Qlt_bool (inject_Z (real_instance_counter self))
           (target_num_instances (properties self))
  && (qa_false_counter self <? qa_false_max (anti_cheat_settings self))
  && Qge_bool current_user_reputation
              (min_reputation (anti_cheat_settings self)).

End Task.

(** ** user.py *)

Record UserProperties : Type := mkUserProperties {
  interestingness_sensitivity : Q;
  payout_sensitivity : Q;
  time_sensitivity : Q;
  time_budget : Q;
  start_reputation : Q;
  random_answer_time : Q;
  intentional_answer_time : Q;
  switch_task_time : Q
}.

(** [UserProperties.__init__]; [switch_task_time] defaults to 1. *)
Definition UserProperties_init
    (interestingness_sensitivity payout_sensitivity time_sensitivity
     time_budget start_reputation switch_task_time : Q) : UserProperties :=
  {| interestingness_sensitivity := interestingness_sensitivity;
     payout_sensitivity := payout_sensitivity;
     time_sensitivity := time_sensitivity;
     time_budget := time_budget;
     start_reputation := start_reputation;
     random_answer_time := 1 # 10;
     intentional_answer_time := 1;
     switch_task_time := switch_task_time |}.

(** ** userenv.py *)

(** What a call of [step] produces: the returned 4-tuple
    [(obs, reward, done, info)], the implicit [None] of a call that falls
    off the end of the function, or an exception. *)
Inductive outcome : Type :=
| Returned (obs : list Q) (reward : Q) (done : bool)
           (info : list (string * string))
| ReturnedNone
| Raised (e : exn).

(** [class UserModelEnv] *)
Module UserModelEnv.

Definition ACTION_QUIT : Z := 0.
Definition ACTION_ANS_RND : Z := 1.
Definition ACTION_ANS_INTENT : Z := 2.
Definition SWITCH_TASK0 : Z := 3.

(** [action_to_str]: the name of an action index, or [None] where the
    function falls off its end; the task number is printed as Python
    prints an integer. *)
Definition action_to_str (action_idx : Z) : option string :=
  if action_idx =? ACTION_QUIT then Some "QUIT"%string
  else if action_idx =? ACTION_ANS_RND then Some "ANSWER NEGLIGENTLY"%string
  else if action_idx =? ACTION_ANS_INTENT then
    Some "ANSWER DILIGENTLY"%string
  else if SWITCH_TASK0 <=? action_idx then
    Some ("SWITCH TO TASK " +:+ pretty (action_idx - SWITCH_TASK0))
  else None.

(** The line break of the rendered text. *)
Definition newline : string := String (Ascii.ascii_of_nat 10) EmptyString.

(** [obs[i]] on the observation array. *)
Definition obs_get (obs : list Q) (i : Z) : exn + Q :=
  match py_get obs i with
  | Some (_, x) => inr x
  | None => inl IndexError
  end.

(** The three lines [observation_to_string] writes for task [i]; [fmt] is
    the text an f-string gives for a float, which is not modelled. *)
Definition task_to_string (fmt : Q -> string) (obs : list Q) (i : Z)
    : exn + string :=
  let skip_idx := i * 5 in
  match obs_get obs skip_idx, obs_get obs (skip_idx + 1),
        obs_get obs (skip_idx + 2), obs_get obs (skip_idx + 3),
        obs_get obs (skip_idx + 4) with
  | inr payout, inr rounds, inr expert, inr effort, inr interest =>
      inr ("  Task " +:+ pretty i +:+ ":" +:+ newline
           +:+ "      payout " +:+ fmt payout
           +:+ " | rounds " +:+ fmt rounds +:+ newline
           +:+ "      expert " +:+ fmt expert
           +:+ " | effort " +:+ fmt effort
           +:+ " | interest " +:+ fmt interest +:+ newline)
  | _, _, _, _, _ => inl IndexError
  end.

(** The loop of [observation_to_string] over [range(num_tasks)]. *)
Fixpoint tasks_to_string (fmt : Q -> string) (obs : list Q)
    (indices : list nat) (output : string) : exn + string :=
  match indices with
  | [] => inr output
  | i :: indices =>
      match task_to_string fmt obs (Z.of_nat i) with
      | inl e => inl e
      | inr lines => tasks_to_string fmt obs indices (output +:+ lines)
      end
  end.

(** The bounds of the observation space that [__init__] declares:
    [min_values] and [max_values], an infinite upper bound being [None]. *)
Definition min_values (num_tasks : Z) : list Q :=
  mjoin (replicate (Z.to_nat num_tasks) [0; -1; -1; -1; -1]%Q)
  ++ [-1; 0; 0; 0]%Q.

Definition max_values (num_tasks : Z) : list (option Q) :=
  mjoin (replicate (Z.to_nat num_tasks)
                   [Some 1%Q; None; None; None; None])
  ++ [Some (inject_Z num_tasks); Some 1%Q; None; None].

Section WithGenerator.
Context {G : Type} `{Generator G}.

(** The attributes of the environment the code reads or writes (the
    gym spaces and the experiment configuration play no role in
    [seed], [reset], [step] and [create_observation]). *)
Record t : Type := mk {
  num_tasks : Z;
  num_actions : Z;
  user_properties : UserProperties;
  user_reputation : Q;
  tasks_properties_distributions : list TaskPropertiesDistribution;
  anti_cheat_settings : AntiCheatSettings;
  tasks : list Task.t;
  task_task_dist_map : gmap nat nat;
  last_action : option Z;
  current_instance : option Instance;
  current_task_idx : Z;
  overall_time_spent : Q;
  random : option G
}.

(** [__init__] *)
Definition init (user_properties : UserProperties)
    (tasks_properties_distributions : list TaskPropertiesDistribution)
    (anti_cheat_settings : AntiCheatSettings) : t :=
  let n := Z.of_nat (length tasks_properties_distributions) in
  {| num_tasks := n;
     num_actions := 3 + n;
     user_properties := user_properties;
     user_reputation := -1;
     tasks_properties_distributions := tasks_properties_distributions;
     anti_cheat_settings := anti_cheat_settings;
     tasks := [];
     task_task_dist_map := ∅;
     last_action := None;
     current_instance := None;
     current_task_idx := -1;
     overall_time_spent := 0;
     random := None |}.

Definition set_user_reputation (v : Q) (s : t) : t :=
  mk (num_tasks s) (num_actions s) (user_properties s) v
     (tasks_properties_distributions s) (anti_cheat_settings s) (tasks s)
     (task_task_dist_map s) (last_action s) (current_instance s)
     (current_task_idx s) (overall_time_spent s) (random s).
Definition set_tasks (v : list Task.t) (s : t) : t :=
  mk (num_tasks s) (num_actions s) (user_properties s) (user_reputation s)
     (tasks_properties_distributions s) (anti_cheat_settings s) v
     (task_task_dist_map s) (last_action s) (current_instance s)
     (current_task_idx s) (overall_time_spent s) (random s).
Definition set_task_task_dist_map (v : gmap nat nat) (s : t) : t :=
  mk (num_tasks s) (num_actions s) (user_properties s) (user_reputation s)
     (tasks_properties_distributions s) (anti_cheat_settings s) (tasks s)
     v (last_action s) (current_instance s)
     (current_task_idx s) (overall_time_spent s) (random s).
Definition set_last_action (v : option Z) (s : t) : t :=
  mk (num_tasks s) (num_actions s) (user_properties s) (user_reputation s)
     (tasks_properties_distributions s) (anti_cheat_settings s) (tasks s)
     (task_task_dist_map s) v (current_instance s)
     (current_task_idx s) (overall_time_spent s) (random s).
Definition set_current_instance (v : option Instance) (s : t) : t :=
  mk (num_tasks s) (num_actions s) (user_properties s) (user_reputation s)
     (tasks_properties_distributions s) (anti_cheat_settings s) (tasks s)
     (task_task_dist_map s) (last_action s) v
     (current_task_idx s) (overall_time_spent s) (random s).
Definition set_current_task_idx (v : Z) (s : t) : t :=
  mk (num_tasks s) (num_actions s) (user_properties s) (user_reputation s)
     (tasks_properties_distributions s) (anti_cheat_settings s) (tasks s)
     (task_task_dist_map s) (last_action s) (current_instance s)
     v (overall_time_spent s) (random s).
Definition set_overall_time_spent (v : Q) (s : t) : t :=
  mk (num_tasks s) (num_actions s) (user_properties s) (user_reputation s)
     (tasks_properties_distributions s) (anti_cheat_settings s) (tasks s)
     (task_task_dist_map s) (last_action s) (current_instance s)
     (current_task_idx s) v (random s).
Definition set_random (v : option G) (s : t) : t :=
  mk (num_tasks s) (num_actions s) (user_properties s) (user_reputation s)
     (tasks_properties_distributions s) (anti_cheat_settings s) (tasks s)
     (task_task_dist_map s) (last_action s) (current_instance s)
     (current_task_idx s) (overall_time_spent s) v.

(** [create_observation]: the five entries of one task slot, then the
    whole vector. *)
Definition task_observation (user_reputation : Q) (task : Task.t)
    : list Q :=
  [payout (Task.properties task)]
  ++ (if Task.is_active task user_reputation
      then [inject_Z (Task.instance_counter task)]
      else [-1]%Q)
  ++ (if 0 <? Task.instance_counter task
      then [expertise (Task.properties task);
            effort (Task.properties task);
            interestingness (Task.properties task)]
      else [-1; -1; -1]%Q).

Definition create_observation (self : t) : list Q :=
  flat_map (task_observation (user_reputation self)) (tasks self)
  ++ [inject_Z (current_task_idx self);
      user_reputation self;
      time_budget (user_properties self);
      overall_time_spent self].

(** [seed]: the generator is replaced by a fresh one made from the
    seed.  (The gym action space is seeded too; it is not part of the
    modelled state.) *)
Definition seed (self : t) (seed : Z) : t :=
  set_random (Some (default_rng seed)) self.

(** The first loop of [reset]: one fresh [Task] per task-giver. *)
Fixpoint create_tasks (dists : list TaskPropertiesDistribution)
    (acs : AntiCheatSettings) (g : G) : list Task.t * G :=
  match dists with
  | [] => ([], g)
  | d :: dists =>
      let '(task_props, g) := create_properties d g in
      let '(new_tasks, g) := create_tasks dists acs g in
      (Task.init task_props acs :: new_tasks, g)
  end.

(** The second loop of [reset]: the tasks are appended in the shuffled
    order and the slot-to-task-giver map is filled on the way. *)
Fixpoint assign_tasks (new_tasks : list Task.t)
    (task_dist_indices : list nat) (task_index : nat)
    (tasks : list Task.t) (m : gmap nat nat)
    : list Task.t * gmap nat nat * option exn :=
  match task_dist_indices with
  | [] => (tasks, m, None)
  | task_dist_index :: rest =>
      match new_tasks !! task_dist_index with
      | None => (tasks, m, Some IndexError)
      | Some task =>
          assign_tasks new_tasks rest (S task_index) (tasks ++ [task])
                       (<[task_index := task_dist_index]> m)
      end
  end.

(** [reset] *)
Definition reset (self : t) : t * (exn + list Q) :=
  let self := set_tasks [] self in
  let self := set_task_task_dist_map ∅ self in
  match random self with
  | None => (self, inl AttributeError)
  | Some g =>
      let '(new_tasks, g) :=
        create_tasks (tasks_properties_distributions self)
                     (anti_cheat_settings self) g in
      let '(task_dist_indices, g) :=
        rng_shuffle
          (seq 0 (length (tasks_properties_distributions self))) g in
      let self := set_random (Some g) self in
      let '(tasks, m, err) :=
        assign_tasks new_tasks task_dist_indices 0 [] ∅ in
      let self := set_task_task_dist_map m (set_tasks tasks self) in
      match err with
      | Some e => (self, inl e)
      | None =>
          let self := set_current_task_idx (-1) self in
          let self := set_last_action None self in
          let self := set_current_instance None self in
          let self := set_overall_time_spent 0 self in
          let self :=
            set_user_reputation (start_reputation (user_properties self))
                                self in
          (self, inr (create_observation self))
      end
  end.

(** The answer of the worker in [step]: the time it takes, the label
    submitted, the reward and the advanced generator; or the exception
    raised, with the generator as it is then. *)
Definition choose_answer (self : t) (action : Z) (current_task : Task.t)
    (g : G) : (exn + Q * Z * Q) * G :=
  let up := user_properties self in
  let props := Task.properties current_task in
  let reward_payout := (payout_sensitivity up * payout props)%Q in
  if action =? ACTION_ANS_RND then
    let time_spent := random_answer_time up in
    let '(answer_to_task, g) := rng_integers 0 (num_classes props) g in
    (inr (time_spent, answer_to_task, reward_payout), g)
  else
    let time_spent := (intentional_answer_time up * effort props)%Q in
    let '(u, g) := rng_random g in
    let reward_interestingness :=
      (interestingness_sensitivity up * interestingness props)%Q in
    if Qlt_bool u (expertise props) then
      match Task.current_instance current_task with
      | None => (inl AttributeError, g)
      | Some inst =>
          (inr (time_spent, true_label inst,
                (reward_payout + reward_interestingness)%Q), g)
      end
    else
      let '(answer_to_task, g) := rng_integers 0 (num_classes props) g in
      (inr (time_spent, answer_to_task,
            (reward_payout + reward_interestingness)%Q), g).

(** The answer branch of [step]; [k] is the position of
    [current_task] in [tasks]. *)
Definition step_answer (self : t) (action : Z) (k : nat)
    (current_task : Task.t) : t * outcome :=
  let up := user_properties self in
  if (current_task_idx self =? -1)
     || negb (Task.is_active current_task (user_reputation self)) then
    let self :=
      set_overall_time_spent
        (overall_time_spent self + random_answer_time up)%Q self in
    (self, Returned (create_observation self) (-1) false [])
  else
    match random self with
    | None => (self, Raised AttributeError)
    | Some g =>
        let '(chosen, g) := choose_answer self action current_task g in
        let self := set_random (Some g) self in
        match chosen with
        | inl e => (self, Raised e)
        | inr (time_spent, answer_to_task, reward) =>
            let self :=
              set_overall_time_spent
                (overall_time_spent self + time_spent)%Q self in
            let '(current_task, res) :=
              Task.receive_answer current_task answer_to_task in
            let self :=
              set_tasks (<[k := current_task]> (tasks self)) self in
            match res with
            | inl e => (self, Raised e)
            | inr reputation_change =>
                let self :=
                  set_user_reputation
                    (user_reputation self + reputation_change)%Q self in
                let self :=
                  set_user_reputation
                    (py_max 0 (py_min 1 (user_reputation self))) self in
                if negb (Task.is_active current_task
                                        (user_reputation self)) then
                  let self := set_current_task_idx (-1) self in
                  (self,
                   Returned (create_observation self) reward false [])
                else
                  let '(current_task, g) :=
                    Task.give_new_instance current_task g in
                  let self := set_random (Some g) self in
                  let self :=
                    set_tasks (<[k := current_task]> (tasks self)) self in
                  (self,
                   Returned (create_observation self) reward false [])
            end
        end
    end.

(** The switch branch of [step]. *)
Definition step_switch (self : t) (action : Z) : t * outcome :=
  let up := user_properties self in
  let previous_task_idx := current_task_idx self in
  let self := set_current_task_idx (action - SWITCH_TASK0) self in
  let self :=
    set_overall_time_spent
      (overall_time_spent self + switch_task_time up)%Q self in
  match py_get (tasks self) (current_task_idx self) with
  | None => (self, Raised IndexError)
  | Some (k, task) =>
      if negb (Task.is_active task (user_reputation self)) then
        let self := set_current_task_idx (-1) self in
        (self, Returned (create_observation self) (-1) false [])
      else
        let reward :=
          if previous_task_idx =? current_task_idx self
          then (-1)%Q else 0%Q in
        match random self with
        | None => (self, Raised AttributeError)
        | Some g =>
            let '(task, g) := Task.give_new_instance task g in
            let self := set_random (Some g) self in
            let self := set_tasks (<[k := task]> (tasks self)) self in
            (self, Returned (create_observation self) reward false [])
        end
  end.

(** [step] *)
Definition step (self : t) (action : Z) : t * outcome :=
  let self := set_last_action (Some action) self in
  let up := user_properties self in
  if action =? ACTION_QUIT then
    (self,
     Returned (create_observation self)
              ((time_budget up - overall_time_spent self)
               * time_sensitivity up)%Q
              true [("end_reason", "user_quit")]%string)
  else if Qlt_bool (time_budget up) (overall_time_spent self) then
    (self,
     Returned (create_observation self) 0 true
              [("end_reason", "end_of_user_time_budget")]%string)
  else
    match py_get (tasks self) (current_task_idx self) with
    | None => (self, Raised IndexError)
    | Some (k, current_task) =>
        if (action =? ACTION_ANS_RND) || (action =? ACTION_ANS_INTENT)
        then step_answer self action k current_task
        else if SWITCH_TASK0 <=? action then step_switch self action
        else (self, ReturnedNone)
    end.

(** A scripted run: the environment after each action of the list and
    what each call of [step] produced. *)
Fixpoint steps (self : t) (actions : list Z) : t * list outcome :=
  match actions with
  | [] => (self, [])
  | a :: actions =>
      let '(self, o) := step self a in
      let '(self, os) := steps self actions in
      (self, o :: os)
  end.

(** [seed(s); reset(); step(a1); step(a2); ...]: what [reset] returned
    and what every [step] produced. *)
Definition run (self : t) (s : Z) (actions : list Z)
    : (exn + list Q) * list outcome :=
  let '(self, o) := reset (seed self s) in
  (o, snd (steps self actions)).

(** [observation_to_string]: after the loop [i] is the last task index,
    or the 0 it was set to before the loop when there is no task. *)
Definition observation_to_string (fmt : Q -> string) (self : t)
    (obs : list Q) : exn + string :=
  let n := Z.to_nat (num_tasks self) in
  match tasks_to_string fmt obs (seq 0 n) ("Observation:" +:+ newline) with
  | inl e => inl e
  | inr output =>
      let i := if 0 <? num_tasks self then num_tasks self - 1 else 0 in
      let obs_idx := (i + 1) * 5 in
      match obs_get obs obs_idx, obs_get obs (obs_idx + 1),
            obs_get obs (obs_idx + 3), obs_get obs (obs_idx + 2) with
      | inr current, inr reputation, inr spent, inr budget =>
          inr (output
               +:+ "  current task: " +:+ fmt current +:+ newline
               +:+ "  reputation: " +:+ fmt reputation +:+ newline
               +:+ "  time: " +:+ fmt spent +:+ "/" +:+ fmt budget
               +:+ newline)
      | _, _, _, _ => inl IndexError
      end
  end.

(** [render]: the text printed, if any. *)
Definition render (fmt : Q -> string) (self : t) (mode : string)
    : exn + option string :=
  if String.eqb mode "text" then
    match observation_to_string fmt self (create_observation self) with
    | inl e => inl e
    | inr text => inr (Some text)
    end
  else inr None.

End WithGenerator.

Arguments t G : clear implicits.

End UserModelEnv.

(** ** A concrete generator

    A linear congruential generator on 64-bit words, to run the model on
    concrete environments. *)
Module Lcg.

Definition modulus : Z := 2 ^ 64.

Definition next (s : Z) : Z :=
  (s * 6364136223846793005 + 1442695040888963407) mod modulus.

Definition random (s : Z) : Q * Z :=
  let s := next s in (s # 18446744073709551616, s).

Definition integers (low high : Z) (s : Z) : Z * Z :=
  let s := next s in
  (if low <? high then low + s mod (high - low) else low, s).

Definition beta (a b : Q) (s : Z) : Q * Z := random s.

Definition shuffle (l : list nat) (s : Z) : list nat * Z :=
  let s := next s in
  (if Z.even (s / 2 ^ 32) then l else reverse l, s).

Lemma shuffle_perm (l : list nat) (s : Z) : (shuffle l s).1 ≡ₚ l.
Proof.
  unfold shuffle; cbn [fst].
  destruct (Z.even _); [reflexivity | apply reverse_Permutation].
Qed.

End Lcg.

#[export] Instance lcg_generator : Generator Z := {
  default_rng s := s mod Lcg.modulus;
  rng_random := Lcg.random;
  rng_integers := Lcg.integers;
  rng_beta := Lcg.beta;
  rng_shuffle := Lcg.shuffle;
  rng_shuffle_perm := Lcg.shuffle_perm
}.

(** ** Concrete environments

    One task-giver with fixed properties and a target of a single
    instance, no gold questions, and a worker with a time budget of 10. *)
Definition demo_settings : AntiCheatSettings :=
  {| qa_false_max := 2; qa_mode_prob := 0; reputation_punishment := -(1 # 20);
     reputation_bonus := 1 # 20; min_reputation := 1 # 2 |}.

Definition demo_giver : TaskPropertiesDistribution :=
  TaskPropertiesCustomFixedDistribution (1 # 2) (4 # 5) (1 # 2) (1 # 2) 1.

Definition demo_user (start_reputation : Q) : UserProperties :=
  UserProperties_init 1 1 2 10 start_reputation 1.

(** The environment as constructed, before [seed] and [reset]. *)
Definition demo_new (start_reputation : Q) : UserModelEnv.t Z :=
  UserModelEnv.init (demo_user start_reputation) [demo_giver] demo_settings.

(** [seed(42); reset()] *)
Definition demo_env (start_reputation : Q) : UserModelEnv.t Z :=
  (UserModelEnv.reset (UserModelEnv.seed (demo_new start_reputation) 42)).1.

(** The environment without any task-giver, after [seed(42); reset()]. *)
Definition demo_empty : UserModelEnv.t Z :=
  (UserModelEnv.reset
     (UserModelEnv.seed (UserModelEnv.init (demo_user 1) [] demo_settings)
                        42)).1.

(** ... followed by [step(3)]: task 0 is selected. *)
Definition demo_selected : UserModelEnv.t Z :=
  (UserModelEnv.step (demo_env 1) 3).1.

(** The task of the only slot as [reset] creates it, and the generator
    [reset] leaves. *)
Definition demo_fresh_task : Task.t :=
  Task.init (TaskProperties_init (1 # 2) (4 # 5) (1 # 2) ((1 # 2) - (1 # 2)) 1)
            demo_settings.

Definition demo_generator : Z :=
  default 0 (UserModelEnv.random (demo_env 1)).

(** A task in each mode, posing a question whose true label is 7. *)
Definition demo_task (m : option Mode) : Task.t :=
  Task.set_current_instance (Some (Instance_init 7))
    (Task.set_mode m
       (Task.init (TaskProperties_init (1 # 2) (4 # 5) (1 # 2) 0 50)
                  demo_settings)).

(** Task 0 once selected, with the question it poses, and the generator
    left by that step. *)
Definition demo_posed_task : Task.t :=
  default demo_fresh_task (UserModelEnv.tasks demo_selected !! 0%nat).

Definition demo_selected_generator : Z :=
  default 0 (UserModelEnv.random demo_selected).

(** A float printed as a fraction, to run [render]. *)
Definition demo_fmt (q : Q) : string :=
  pretty (Qnum q) +:+ "/" +:+ pretty (Zpos (Qden q)).

(** A gold question after one failure, and a task that has reached its
    target of 50 real answers. *)
Definition demo_failed_once : Task.t :=
  Task.set_qa_false_counter 1 (demo_task (Some QUALITY_CONTROL_MODE)).

Definition demo_completed : Task.t :=
  Task.set_real_instance_counter 50 (demo_task (Some LABEL_MODE)).

(** ** Notions used by the properties *)

Section Notions.
Context {G : Type} `{Generator G}.

Import UserModelEnv.

(** The state [reset] leaves, from the configuration and the generator. *)
Definition episode_start (e : t G) (g : G) : t G :=
  let dists := tasks_properties_distributions e in
  let '(new_tasks, g) := create_tasks dists (anti_cheat_settings e) g in
  let '(indices, g) := rng_shuffle (seq 0 (length dists)) g in
  let '(tasks, m, _) := assign_tasks new_tasks indices 0 [] ∅ in
  mk (num_tasks e) (num_actions e) (user_properties e)
     (start_reputation (user_properties e)) dists (anti_cheat_settings e)
     tasks m None None (-1) 0 (Some g).

(** All tasks of the episode hold the settings of the environment. *)
Definition shared_settings (e : t G) : Prop :=
  Forall (fun task => Task.anti_cheat_settings task = anti_cheat_settings e)
         (tasks e).

(** The configuration of an environment: what [__init__] fixes. *)
Definition same_configuration (e1 e2 : t G) : Prop :=
  num_tasks e1 = num_tasks e2
  /\ num_actions e1 = num_actions e2
  /\ user_properties e1 = user_properties e2
  /\ tasks_properties_distributions e1 = tasks_properties_distributions e2
  /\ anti_cheat_settings e1 = anti_cheat_settings e2.

(** The states in which [step] can be called: the task list is the one of
    the episode, the selection is -1 or a position in it, the generator is
    seeded, and the selected task has posed a question. *)
Definition well_formed (e : t G) : Prop :=
  Z.of_nat (length (tasks e)) = num_tasks e
  /\ -1 <= current_task_idx e < num_tasks e
  /\ is_Some (random e)
  /\ forall task,
       0 <= current_task_idx e ->
       tasks e !! Z.to_nat (current_task_idx e) = Some task ->
       is_Some (Task.mode task) /\ is_Some (Task.current_instance task).

(** The counters of a task are consistent: every answer counted as real
    or as a failed gold question is counted as an instance. *)
Definition counters_ok (task : Task.t) : Prop :=
  0 <= Task.qa_false_counter task
  /\ 0 <= Task.real_instance_counter task
  /\ Task.real_instance_counter task + Task.qa_false_counter task
     <= Task.instance_counter task.

(** The counters of a task respect the caps: the last failed gold
    question and the last real answer were accepted below the cap. *)
Definition within_caps (task : Task.t) : Prop :=
  (Task.qa_false_counter task = 0
   \/ Task.qa_false_counter task
      <= qa_false_max (Task.anti_cheat_settings task))
  /\ (Task.real_instance_counter task = 0
      \/ (inject_Z (Task.real_instance_counter task - 1)
          < target_num_instances (Task.properties task))%Q).

(** What a step can do to a task, given the reputation before the step:
    nothing, or, for an active task only, an answer, a new instance, or
    both. *)
Inductive task_step (r : Q) (task : Task.t) : Task.t -> Prop :=
| task_same : task_step r task task
| task_new (g : G) :
    Task.is_active task r = true ->
    task_step r task (Task.give_new_instance task g).1
| task_answered (answer : Z) :
    Task.is_active task r = true ->
    task_step r task (Task.receive_answer task answer).1
| task_answered_new (answer : Z) (g : G) :
    Task.is_active task r = true ->
    task_step r task
      (Task.give_new_instance (Task.receive_answer task answer).1 g).1.

(** A later state of a task: the same properties and settings, and no
    counter smaller. *)
Definition task_evolves (task task' : Task.t) : Prop :=
  Task.properties task' = Task.properties task
  /\ Task.anti_cheat_settings task' = Task.anti_cheat_settings task
  /\ Task.instance_counter task <= Task.instance_counter task'
  /\ Task.real_instance_counter task <= Task.real_instance_counter task'
  /\ Task.qa_false_counter task <= Task.qa_false_counter task'.

(** No action costs negative time: the answer and switch times of the
    worker and the effort of every task are not negative. *)
Definition costs_nonneg (e : t G) : Prop :=
  (0 <= random_answer_time (user_properties e))%Q
  /\ (0 <= intentional_answer_time (user_properties e))%Q
  /\ (0 <= switch_task_time (user_properties e))%Q
  /\ Forall (fun task => (0 <= effort (Task.properties task))%Q) (tasks e).

(** An entry lies between its declared bounds, and an observation in
    the declared box. *)
Definition within_bounds (x : Q) (bounds : Q * option Q) : Prop :=
  (bounds.1 <= x)%Q
  /\ match bounds.2 with
     | Some high => (x <= high)%Q
     | None => True
     end.

Definition in_observation_space (num_tasks : Z) (obs : list Q) : Prop :=
  Forall2 within_bounds obs (zip (min_values num_tasks) (max_values num_tasks)).

(** The properties of a task lie in the ranges the observation space
    declares for them (and the effort is not negative). *)
Definition properties_in_range (task : Task.t) : Prop :=
  (0 <= payout (Task.properties task) <= 1)%Q
  /\ (-1 <= expertise (Task.properties task))%Q
  /\ (0 <= effort (Task.properties task))%Q
  /\ (-1 <= interestingness (Task.properties task))%Q.

(** The generator is seeded, the selection is -1 or a position, and the
    selected task, if any, is active and has posed a question. *)
Definition selected_ready (e : t G) : Prop :=
  is_Some (random e)
  /\ -1 <= current_task_idx e
  /\ forall (k : nat) (task : Task.t),
       current_task_idx e = Z.of_nat k ->
       tasks e !! k = Some task ->
       Task.is_active task (user_reputation e) = true
       /\ is_Some (Task.mode task)
       /\ is_Some (Task.current_instance task).

(** What an observation within the declared space needs of the state. *)
Definition observable (e : t G) : Prop :=
  Z.of_nat (length (tasks e)) = num_tasks e
  /\ -1 <= current_task_idx e <= num_tasks e
  /\ (0 <= user_reputation e <= 1)%Q
  /\ (0 <= time_budget (user_properties e))%Q
  /\ (0 <= overall_time_spent e)%Q
  /\ costs_nonneg e
  /\ Forall (fun task => properties_in_range task /\ counters_ok task)
            (tasks e).

End Notions.

(** Case analysis on every test and every destructured call of a goal. *)
Ltac split_cases :=
  repeat match goal with
    | |- context [match ?x with _ => _ end] => destruct x eqn:?
    end.

(** Unfolds the field accesses and updates of the environment record. *)
Ltac simpl_env :=
  cbn [fst snd
       UserModelEnv.num_tasks UserModelEnv.num_actions
       UserModelEnv.user_properties UserModelEnv.user_reputation
       UserModelEnv.tasks_properties_distributions
       UserModelEnv.anti_cheat_settings UserModelEnv.tasks
       UserModelEnv.task_task_dist_map UserModelEnv.last_action
       UserModelEnv.current_instance UserModelEnv.current_task_idx
       UserModelEnv.overall_time_spent UserModelEnv.random
       UserModelEnv.set_user_reputation UserModelEnv.set_tasks
       UserModelEnv.set_task_task_dist_map UserModelEnv.set_last_action
       UserModelEnv.set_current_instance UserModelEnv.set_current_task_idx
       UserModelEnv.set_overall_time_spent UserModelEnv.set_random] in *.

(** Unfolds the field accesses and updates of the task record. *)
Ltac simpl_task :=
  cbn [fst snd
       Task.properties Task.anti_cheat_settings Task.mode
       Task.current_instance Task.instance_counter
       Task.real_instance_counter Task.qa_false_counter
       Task.last_response_type Task.set_mode Task.set_current_instance
       Task.set_instance_counter Task.set_real_instance_counter
       Task.set_qa_false_counter Task.set_last_response_type] in *.

(** * Properties *)

(** ** Comparisons and indexing *)

Lemma Qlt_bool_true (a b : Q) : Qlt_bool a b = true <-> (a < b)%Q.
Proof.
  unfold Qlt_bool. rewrite negb_true_iff, <- not_true_iff_false, Qle_bool_iff.
  split; [apply Qnot_le_lt | apply Qlt_not_le].
Qed.

Lemma Qlt_bool_false (a b : Q) : Qlt_bool a b = false <-> (b <= a)%Q.
Proof.
  unfold Qlt_bool. rewrite negb_false_iff. apply Qle_bool_iff.
Qed.

Lemma Qge_bool_true (a b : Q) : Qge_bool a b = true <-> (b <= a)%Q.
Proof. apply Qle_bool_iff. Qed.

Lemma py_get_Some {A : Type} (l : list A) (i : Z) (k : nat) (x : A) :
  py_get l i = Some (k, x) ->
  l !! k = Some x /\
  (0 <= i -> i = Z.of_nat k) /\
  (i < 0 -> Z.of_nat (length l) + i = Z.of_nat k).
Proof.
  unfold py_get. intros Hget.
  destruct (0 <=? i) eqn:Hi;
    destruct (_ && _) eqn:Hb; try discriminate;
    destruct (l !! _) eqn:Hl; try discriminate;
    injection Hget as <- <-;
    apply andb_true_iff in Hb as [Hb1 Hb2];
    split; [assumption | lia | assumption | lia].
Qed.

Lemma py_get_in_range {A : Type} (l : list A) (i : Z) :
  - Z.of_nat (length l) <= i < Z.of_nat (length l) ->
  exists k x, py_get l i = Some (k, x).
Proof.
  intros Hi. unfold py_get.
  set (k := if 0 <=? i then i else Z.of_nat (length l) + i).
  assert (Hk : 0 <= k < Z.of_nat (length l))
    by (subst k; destruct (0 <=? i) eqn:E; lia).
  replace ((0 <=? k) && (k <? Z.of_nat (length l))) with true
    by (symmetry; apply andb_true_iff; split; lia).
  destruct (l !! Z.to_nat k) as [x|] eqn:Hl.
  - exists (Z.to_nat k), x. reflexivity.
  - apply lookup_ge_None in Hl. lia.
Qed.

Lemma py_get_nonneg {A : Type} (l : list A) (i : Z) (x : A) :
  0 <= i -> l !! Z.to_nat i = Some x -> py_get l i = Some (Z.to_nat i, x).
Proof.
  intros Hi Hl. unfold py_get.
  pose proof (lookup_lt_Some _ _ _ Hl) as Hlt.
  replace (0 <=? i) with true by lia.
  replace ((0 <=? i) && (i <? Z.of_nat (length l))) with true
    by (symmetry; apply andb_true_iff; split; lia).
  rewrite Hl. reflexivity.
Qed.

Lemma py_get_out_of_range {A : Type} (l : list A) (i : Z) :
  Z.of_nat (length l) <= i -> py_get l i = None.
Proof.
  intros Hi. unfold py_get.
  replace (0 <=? i) with true by lia.
  replace (i <? Z.of_nat (length l)) with false by lia.
  rewrite andb_false_r. reflexivity.
Qed.

(** ** [Task.receive_answer] *)

(** C4: [receive_answer] fails with the assertion when no mode is set;
    with a mode (and the instance it was drawn with) it adds one to
    [instance_counter]; a gold question answered wrongly adds one to
    [qa_false_counter] and returns [reputation_punishment], answered
    rightly it returns [reputation_bonus] and leaves [qa_false_counter];
    a real question adds one to [real_instance_counter] and returns 0
    whatever the answer.  The call changes the task's counters and status
    only: the reputation change is returned, not applied. *)
Theorem receive_answer_spec (t : Task.t) (answer : Z) :
  (Task.mode t = None ->
   Task.receive_answer t answer = (t, inl AssertionError)) /\
  (forall m inst,
     Task.mode t = Some m -> Task.current_instance t = Some inst ->
     exists t' delta,
       Task.receive_answer t answer = (t', inr delta) /\
       Task.instance_counter t' = Task.instance_counter t + 1 /\
       Task.properties t' = Task.properties t /\
       Task.anti_cheat_settings t' = Task.anti_cheat_settings t /\
       Task.mode t' = Task.mode t /\
       Task.current_instance t' = Task.current_instance t /\
       match m with
       | QUALITY_CONTROL_MODE =>
           Task.real_instance_counter t' = Task.real_instance_counter t /\
           if answer =? true_label inst then
             Task.qa_false_counter t' = Task.qa_false_counter t /\
             delta = reputation_bonus (Task.anti_cheat_settings t) /\
             Task.last_response_type t' = "qa_correct"%string
           else
             Task.qa_false_counter t' = Task.qa_false_counter t + 1 /\
             delta = reputation_punishment (Task.anti_cheat_settings t) /\
             Task.last_response_type t' = "qa_incorrect"%string
       | LABEL_MODE =>
           Task.real_instance_counter t' = Task.real_instance_counter t + 1 /\
           Task.qa_false_counter t' = Task.qa_false_counter t /\
           delta = 0%Q /\
           Task.last_response_type t' =
             (if answer =? true_label inst
              then "correct"%string else "incorrect"%string)
       end).
Proof.
  split.
  - intros Hm. unfold Task.receive_answer. rewrite Hm. reflexivity.
  - intros m inst Hm Hi. unfold Task.receive_answer. rewrite Hm.
    destruct m; cbn [Task.current_instance Task.set_instance_counter
                     Task.set_real_instance_counter];
      rewrite Hi; destruct (answer =? true_label inst); cbn [negb];
      eexists _, _; (split; [reflexivity |]); cbn; repeat split; congruence.
Qed.

(** The four outcomes of [receive_answer] and its failure, on a task whose
    current question has true label 7. *)
Example receive_answer_examples :
  Task.receive_answer (demo_task None) 7 = (demo_task None, inl AssertionError)
  /\ (Task.receive_answer (demo_task (Some QUALITY_CONTROL_MODE)) 3).2
     = inr (-(1 # 20))%Q
  /\ Task.qa_false_counter
       (Task.receive_answer (demo_task (Some QUALITY_CONTROL_MODE)) 3).1 = 1
  /\ (Task.receive_answer (demo_task (Some QUALITY_CONTROL_MODE)) 7).2
     = inr (1 # 20)%Q
  /\ (Task.receive_answer (demo_task (Some LABEL_MODE)) 3).2 = inr 0%Q
  /\ Task.real_instance_counter
       (Task.receive_answer (demo_task (Some LABEL_MODE)) 3).1 = 1.
Proof. repeat split. Qed.

Section Claims.
Context {G : Type} `{Generator G}.

Import UserModelEnv.

(** ** Termination of an episode *)

Lemma step_answer_continues (e : t G) (action : Z) (k : nat)
    (current_task : Task.t) obs reward done info :
  (step_answer e action k current_task).2 = Returned obs reward done info ->
  done = false.
Proof.
  unfold step_answer. split_cases; cbn [snd]; congruence.
Qed.

Lemma step_switch_continues (e : t G) (action : Z) obs reward done info :
  (step_switch e action).2 = Returned obs reward done info -> done = false.
Proof.
  unfold step_switch. split_cases; cbn [snd]; congruence.
Qed.

(** C5: quitting is checked first and ends the episode with the reward
    [(time_budget - overall_time_spent) * time_sensitivity] and the reason
    [user_quit]; any other action when the time already spent exceeds the
    budget ends it with reward 0 and the reason [end_of_user_time_budget];
    in both cases only [last_action] changes; a returned [done] is true in
    these two cases only; a budget of 10 with 3 spent and sensitivity 2
    gives the quitting reward 14. *)
Theorem step_terminal (e : t G) (action : Z) :
  let up := user_properties e in
  let e' := set_last_action (Some action) e in
  (action = ACTION_QUIT ->
   step e action =
     (e', Returned (create_observation e')
                   ((time_budget up - overall_time_spent e)
                    * time_sensitivity up)%Q
                   true [("end_reason", "user_quit")]%string))
  /\ (action <> ACTION_QUIT ->
      (time_budget up < overall_time_spent e)%Q ->
      step e action =
        (e', Returned (create_observation e') 0 true
                      [("end_reason", "end_of_user_time_budget")]%string))
  /\ (forall obs reward done info,
        (step e action).2 = Returned obs reward done info ->
        done = true <->
        action = ACTION_QUIT \/ (time_budget up < overall_time_spent e)%Q)
  /\ (action = ACTION_QUIT ->
      time_budget up = 10%Q -> overall_time_spent e = 3%Q ->
      time_sensitivity up = 2%Q ->
      exists obs info, (step e action).2 = Returned obs 14 true info).
Proof.
  intros up e'. repeat split.
  - intros ->. reflexivity.
  - intros Hq Hlt. unfold step.
    destruct (action =? ACTION_QUIT) eqn:E; [apply Z.eqb_eq in E; contradiction|].
    apply Qlt_bool_true in Hlt. cbn [user_properties set_last_action
      overall_time_spent]. subst up. rewrite Hlt. reflexivity.
  - intros ->. unfold step in H0.
    destruct (action =? ACTION_QUIT) eqn:E; [left; lia|].
    cbn [user_properties set_last_action overall_time_spent] in H0.
    destruct (Qlt_bool _ _) eqn:E2; [right; apply Qlt_bool_true, E2|].
    revert H0. split_cases; cbn [snd]; try congruence.
    + intros Hs. apply step_answer_continues in Hs. discriminate.
    + intros Hs. apply step_switch_continues in Hs. discriminate.
  - intros Hc. unfold step in H0.
    destruct (action =? ACTION_QUIT) eqn:E.
    { cbn [snd] in H0. congruence. }
    cbn [user_properties set_last_action overall_time_spent] in H0.
    destruct Hc as [-> | Hlt]; [discriminate|].
    apply Qlt_bool_true in Hlt. subst up. rewrite Hlt in H0.
    cbn [snd] in H0. congruence.
  - intros -> Hb Ht Hs. unfold step. cbn [Z.eqb ACTION_QUIT snd].
    cbn [user_properties set_last_action overall_time_spent].
    subst up. rewrite Hb, Ht, Hs. eexists _, _. reflexivity.
Qed.

(** ** Answering without an answerable task *)

(** C9, as the code has it: [step] reads [tasks[current_task_idx]]
    before it tests the selection, so the task list must hold that entry
    (with -1 selected: it must not be empty).  Then an answer action in a
    step that does not end the episode, when no task is selected or the
    selected task is not active, returns reward -1 and [done = false] and
    adds exactly [random_answer_time] to [overall_time_spent]; the tasks
    (their counters and modes), the reputation and the selection are
    unchanged. *)
Theorem step_answer_noop (e : t G) (action : Z) (k : nat)
    (current_task : Task.t) :
  action = ACTION_ANS_RND \/ action = ACTION_ANS_INTENT ->
  ~ (time_budget (user_properties e) < overall_time_spent e)%Q ->
  py_get (tasks e) (current_task_idx e) = Some (k, current_task) ->
  current_task_idx e = -1
  \/ Task.is_active current_task (user_reputation e) = false ->
  let e' :=
    set_overall_time_spent
      (overall_time_spent e + random_answer_time (user_properties e))%Q
      (set_last_action (Some action) e) in
  step e action = (e', Returned (create_observation e') (-1) false [])
  /\ tasks e' = tasks e
  /\ user_reputation e' = user_reputation e
  /\ current_task_idx e' = current_task_idx e.
Proof.
  intros Ha Hbudget Hget Hno e'.
  split; [| repeat split].
  unfold step.
  replace (action =? ACTION_QUIT) with false
    by (unfold ACTION_QUIT, ACTION_ANS_RND, ACTION_ANS_INTENT in *; lia).
  cbn [user_properties set_last_action overall_time_spent tasks
       current_task_idx].
  destruct (Qlt_bool _ _) eqn:Hlt;
    [apply Qlt_bool_true in Hlt; contradiction|].
  rewrite Hget.
  replace ((action =? ACTION_ANS_RND) || (action =? ACTION_ANS_INTENT))
    with true
    by (symmetry; apply orb_true_iff; destruct Ha; [left | right]; lia).
  unfold step_answer.
  cbn [user_properties set_last_action overall_time_spent tasks
       current_task_idx user_reputation].
  replace ((current_task_idx e =? -1)
           || negb (Task.is_active current_task (user_reputation e)))
    with true; [reflexivity|].
  symmetry; apply orb_true_iff.
  destruct Hno as [-> | ->]; [left | right]; reflexivity.
Qed.

(** ** Switching tasks *)

(** C6: a switch action (to the task at position [action - 3]) in a step
    that does not end the episode adds exactly [switch_task_time] to
    [overall_time_spent] and returns [done = false]; when the target is
    not active the reward is -1, the selection becomes -1 and neither the
    tasks nor the generator change; otherwise the target is selected, it
    draws a new instance, and the reward is -1 when it was selected
    already and 0 when it was not. *)
Theorem step_switch_spec (e : t G) (action : Z) (task : Task.t) :
  SWITCH_TASK0 <= action ->
  ~ (time_budget (user_properties e) < overall_time_spent e)%Q ->
  is_Some (py_get (tasks e) (current_task_idx e)) ->
  tasks e !! Z.to_nat (action - SWITCH_TASK0) = Some task ->
  let e1 :=
    set_overall_time_spent
      (overall_time_spent e + switch_task_time (user_properties e))%Q
      (set_last_action (Some action) e) in
  (Task.is_active task (user_reputation e) = false ->
   let e2 := set_current_task_idx (-1) e1 in
   step e action = (e2, Returned (create_observation e2) (-1) false []))
  /\ (forall g,
        Task.is_active task (user_reputation e) = true ->
        random e = Some g ->
        let e2 :=
          set_tasks (<[Z.to_nat (action - SWITCH_TASK0) :=
                         (Task.give_new_instance task g).1]> (tasks e))
            (set_random (Some (Task.give_new_instance task g).2)
               (set_current_task_idx (action - SWITCH_TASK0) e1)) in
        step e action =
          (e2, Returned (create_observation e2)
                        (if current_task_idx e =? action - SWITCH_TASK0
                         then -1 else 0)%Q
                        false [])).
Proof.
  intros Ha Hbudget [[k0 t0] Hcur] Htask e1.
  assert (Hget : py_get (tasks e) (action - SWITCH_TASK0)
                 = Some (Z.to_nat (action - SWITCH_TASK0), task))
    by (apply py_get_nonneg; [lia | assumption]).
  assert (Hstep : step e action
                  = step_switch (set_last_action (Some action) e) action).
  { unfold step.
    replace (action =? ACTION_QUIT) with false
      by (unfold ACTION_QUIT, SWITCH_TASK0 in *; lia).
    cbn [user_properties set_last_action overall_time_spent tasks
         current_task_idx].
    destruct (Qlt_bool _ _) eqn:Hlt;
      [apply Qlt_bool_true in Hlt; contradiction|].
    rewrite Hcur.
    replace ((action =? ACTION_ANS_RND) || (action =? ACTION_ANS_INTENT))
      with false
      by (symmetry; apply orb_false_iff;
          unfold ACTION_ANS_RND, ACTION_ANS_INTENT, SWITCH_TASK0 in *; lia).
    replace (SWITCH_TASK0 <=? action) with true by lia.
    reflexivity. }
  rewrite Hstep. unfold step_switch.
  cbn [user_properties set_last_action overall_time_spent tasks
       current_task_idx user_reputation set_current_task_idx
       set_overall_time_spent random].
  rewrite Hget. split.
  - intros ->. reflexivity.
  - intros g -> Hg. cbn [negb]. rewrite Hg.
    destruct (Task.give_new_instance task g) as [task' g'].
    reflexivity.
Qed.

(** ** The observation vector *)

Lemma task_observation_length (r : Q) (task : Task.t) :
  length (task_observation r task) = 5%nat.
Proof.
  unfold task_observation.
  destruct (Task.is_active task r), (0 <? Task.instance_counter task);
    reflexivity.
Qed.

Lemma flat_map_length_fixed {A B : Type} (f : A -> list B) (n : nat)
    (l : list A) :
  (forall x, length (f x) = n) -> length (flat_map f l) = (n * length l)%nat.
Proof.
  intros Hf. induction l as [|x l IH]; cbn [flat_map length].
  - lia.
  - rewrite length_app, Hf, IH. lia.
Qed.

Lemma flat_map_lookup_fixed {A B : Type} (f : A -> list B) (n : nat)
    (l : list A) (i j : nat) (x : A) :
  (forall y, length (f y) = n) -> l !! i = Some x -> (j < n)%nat ->
  flat_map f l !! (n * i + j)%nat = f x !! j.
Proof.
  intros Hf. revert i.
  induction l as [|y l IH]; intros i Hi Hj; [discriminate|].
  cbn [flat_map]. destruct i as [|i].
  - injection Hi as ->.
    rewrite Nat.mul_0_r, Nat.add_0_l. apply lookup_app_l. rewrite Hf. exact Hj.
  - cbn in Hi. rewrite lookup_app_r by (rewrite Hf; lia).
    rewrite Hf. replace (n * S i + j - n)%nat with (n * i + j)%nat by lia.
    apply IH; assumption.
Qed.

Lemma create_observation_slot (e : t G) (i j : nat) (task : Task.t) :
  tasks e !! i = Some task -> (j < 5)%nat ->
  create_observation e !! (5 * i + j)%nat
  = task_observation (user_reputation e) task !! j.
Proof.
  intros Hi Hj. unfold create_observation.
  rewrite lookup_app_l.
  - apply flat_map_lookup_fixed;
      [apply task_observation_length | assumption | assumption].
  - rewrite (flat_map_length_fixed _ 5) by apply task_observation_length.
    apply lookup_lt_Some in Hi. lia.
Qed.

Lemma create_observation_tail (e : t G) (j : nat) :
  create_observation e !! (5 * length (tasks e) + j)%nat
  = [inject_Z (current_task_idx e); user_reputation e;
     time_budget (user_properties e); overall_time_spent e] !! j.
Proof.
  unfold create_observation.
  rewrite lookup_app_r
    by (rewrite (flat_map_length_fixed _ 5) by apply task_observation_length;
        lia).
  rewrite (flat_map_length_fixed _ 5) by apply task_observation_length.
  f_equal. lia.
Qed.

(** C7, as the code has it: in every state whose task list has
    [num_tasks] entries (the list [reset] builds, one task per
    task-giver), the observation has exactly [5 * num_tasks + 4] entries:
    for the task in slot [i], at [5 * i] its payout, then its
    [instance_counter] if it is active for the current reputation and -1
    otherwise, then its expertise, effort and interestingness if
    [instance_counter > 0] and -1 each otherwise; after the slots come
    [current_task_idx], [user_reputation], [time_budget] and
    [overall_time_spent]. *)
Theorem create_observation_spec (e : t G) :
  Z.of_nat (length (tasks e)) = num_tasks e ->
  Z.of_nat (length (create_observation e)) = 5 * num_tasks e + 4
  /\ (forall (i : nat) (task : Task.t),
        tasks e !! i = Some task ->
        let visible := 0 <? Task.instance_counter task in
        let props := Task.properties task in
        create_observation e !! (5 * i)%nat = Some (payout props)
        /\ create_observation e !! (5 * i + 1)%nat
           = Some (if Task.is_active task (user_reputation e)
                   then inject_Z (Task.instance_counter task) else (-1)%Q)
        /\ create_observation e !! (5 * i + 2)%nat
           = Some (if visible then expertise props else (-1)%Q)
        /\ create_observation e !! (5 * i + 3)%nat
           = Some (if visible then effort props else (-1)%Q)
        /\ create_observation e !! (5 * i + 4)%nat
           = Some (if visible then interestingness props else (-1)%Q))
  /\ (let n := length (tasks e) in
      create_observation e !! (5 * n)%nat
      = Some (inject_Z (current_task_idx e))
      /\ create_observation e !! (5 * n + 1)%nat = Some (user_reputation e)
      /\ create_observation e !! (5 * n + 2)%nat
         = Some (time_budget (user_properties e))
      /\ create_observation e !! (5 * n + 3)%nat
         = Some (overall_time_spent e)).
Proof.
  intros Hlen. split; [| split].
  - unfold create_observation.
    rewrite length_app, (flat_map_length_fixed _ 5)
      by apply task_observation_length.
    cbn [length]. lia.
  - intros i task Hi visible props.
    replace (5 * i)%nat with (5 * i + 0)%nat at 1 by lia.
    rewrite !(create_observation_slot e i _ task Hi) by lia.
    unfold task_observation. subst visible props.
    destruct (Task.is_active task (user_reputation e)),
             (0 <? Task.instance_counter task); repeat split.
  - intros n. subst n.
    replace (5 * length (tasks e))%nat
      with (5 * length (tasks e) + 0)%nat at 1 by lia.
    rewrite !create_observation_tail. repeat split.
Qed.





(** ** What [reset] builds *)

Lemma create_tasks_spec (dists : list TaskPropertiesDistribution)
    (acs : AntiCheatSettings) (g : G) :
  length (create_tasks dists acs g).1 = length dists
  /\ Forall (fun task => exists props, task = Task.init props acs)
            (create_tasks dists acs g).1.
Proof.
  revert g. induction dists as [|d dists IH]; intros g; cbn [create_tasks].
  - split; [reflexivity | constructor].
  - destruct (create_properties d g) as [props g1].
    specialize (IH g1). destruct (create_tasks dists acs g1) as [new g2].
    cbn [fst length] in *. destruct IH as [IHl IHf].
    split; [congruence | constructor; [eexists; reflexivity | assumption]].
Qed.

Lemma assign_tasks_spec (new_tasks : list Task.t) (indices : list nat)
    (k : nat) (tasks : list Task.t) (m : gmap nat nat) :
  Forall (fun j => (j < length new_tasks)%nat) indices ->
  exists tasks' m',
    assign_tasks new_tasks indices k tasks m = (tasks ++ tasks', m', None)
    /\ length tasks' = length indices
    /\ Forall (fun task => task ∈ new_tasks) tasks'.
Proof.
  intros Hall. revert k tasks m.
  induction Hall as [|j indices Hj Hall IH]; intros k tasks m;
    cbn [assign_tasks].
  - exists [], m. rewrite app_nil_r. repeat split. constructor.
  - destruct (lookup_lt_is_Some_2 new_tasks j Hj) as [task Htask].
    rewrite Htask.
    destruct (IH (S k) (tasks ++ [task]) (<[k:=j]> m))
      as (tasks' & m' & -> & Hlen & Hin).
    exists (task :: tasks'), m'. rewrite <- app_assoc. cbn [app length].
    repeat split; [congruence|].
    constructor; [eapply list_elem_of_lookup_2; eassumption | assumption].
Qed.

(** [reset] on a seeded environment returns: the shuffled indices are
    positions of the freshly created tasks. *)
Lemma reset_seeded (e : t G) (g : G) :
  random e = Some g ->
  reset e = (episode_start e g, inr (create_observation (episode_start e g))).
Proof.
  intros Hg. unfold reset, episode_start.
  cbn [random set_tasks set_task_task_dist_map
       tasks_properties_distributions anti_cheat_settings].
  rewrite Hg.
  pose proof (create_tasks_spec (tasks_properties_distributions e)
                (anti_cheat_settings e) g) as [Hlen _].
  destruct (create_tasks _ _ g) as [new_tasks g1]. cbn [fst] in Hlen.
  pose proof (rng_shuffle_perm
                (seq 0 (length (tasks_properties_distributions e))) g1)
    as Hperm.
  destruct (rng_shuffle _ g1) as [indices g2]. cbn [fst] in Hperm.
  assert (Hall : Forall (fun j => (j < length new_tasks)%nat) indices).
  { rewrite Hperm. apply Forall_seq. intros j Hj. lia. }
  destruct (assign_tasks_spec new_tasks indices 0 [] ∅ Hall)
    as (tasks' & m' & -> & _ & _).
  reflexivity.
Qed.

Lemma episode_start_spec (e : t G) (g : G) :
  let e' := episode_start e g in
  length (tasks e') = length (tasks_properties_distributions e)
  /\ Forall (fun task => exists props,
               task = Task.init props (anti_cheat_settings e)) (tasks e')
  /\ user_properties e' = user_properties e
  /\ anti_cheat_settings e' = anti_cheat_settings e
  /\ num_tasks e' = num_tasks e
  /\ tasks_properties_distributions e' = tasks_properties_distributions e
  /\ user_reputation e' = start_reputation (user_properties e)
  /\ current_task_idx e' = -1
  /\ overall_time_spent e' = 0%Q
  /\ is_Some (random e').
Proof.
  unfold episode_start.
  pose proof (create_tasks_spec (tasks_properties_distributions e)
                (anti_cheat_settings e) g) as [Hlen Hinit].
  destruct (create_tasks _ _ g) as [new_tasks g1]. cbn [fst] in Hlen, Hinit.
  pose proof (rng_shuffle_perm
                (seq 0 (length (tasks_properties_distributions e))) g1)
    as Hperm.
  destruct (rng_shuffle _ g1) as [indices g2]. cbn [fst] in Hperm.
  assert (Hall : Forall (fun j => (j < length new_tasks)%nat) indices).
  { rewrite Hperm. apply Forall_seq. intros j Hj. lia. }
  destruct (assign_tasks_spec new_tasks indices 0 [] ∅ Hall)
    as (tasks' & m' & -> & Hl & Hin).
  cbn. repeat split; try (eexists; reflexivity).
  - rewrite Hl, Hperm, length_seq. reflexivity.
  - eapply Forall_impl; [exact Hin|]. intros task Htask.
    rewrite Forall_forall in Hinit. apply Hinit. exact Htask.
Qed.

Lemma reset_returns (e0 e : t G) obs :
  reset e0 = (e, inr obs) ->
  exists g, random e0 = Some g /\ e = episode_start e0 g.
Proof.
  intros Hreset. destruct (random e0) as [g|] eqn:Hg.
  - exists g. rewrite (reset_seeded e0 g Hg) in Hreset.
    split; [reflexivity | congruence].
  - unfold reset in Hreset.
    cbn [random set_tasks set_task_task_dist_map] in Hreset.
    rewrite Hg in Hreset. discriminate.
Qed.

Lemma steps_cons (e : t G) (a : Z) (actions : list Z) :
  (steps e (a :: actions)).1 = (steps (step e a).1 actions).1.
Proof.
  cbn [steps]. destruct (step e a) as [e1 o]. cbn [fst].
  destruct (steps e1 actions) as [e2 os]. reflexivity.
Qed.

Lemma steps_app (e : t G) (actions1 actions2 : list Z) :
  (steps e (actions1 ++ actions2)).1
  = (steps (steps e actions1).1 actions2).1.
Proof.
  revert e. induction actions1 as [|a actions1 IH]; intros e.
  - reflexivity.
  - cbn [app]. rewrite !steps_cons. apply IH.
Qed.

(** ** The reputation *)

Lemma clamp_range (x : Q) : (0 <= py_max 0 (py_min 1 x) <= 1)%Q.
Proof.
  unfold py_max, py_min.
  destruct (Qlt_bool x 1) eqn:E1.
  - apply Qlt_bool_true in E1. destruct (Qlt_bool 0 x) eqn:E2.
    + apply Qlt_bool_true in E2. lra.
    + lra.
  - destruct (Qlt_bool 0 1) eqn:E2; lra.
Qed.

Lemma step_reputation_range (e : t G) (action : Z) :
  (0 <= user_reputation e <= 1)%Q ->
  (0 <= user_reputation (step e action).1 <= 1)%Q.
Proof.
  intros Hrep. unfold step, step_answer, step_switch.
  split_cases; simpl_env; first [exact Hrep | apply clamp_range].
Qed.

(** C1, as the code has it: [reset] assigns [start_reputation] as it is
    and only an answered question clamps the reputation; so when the
    configured [start_reputation] lies in [0, 1], the reputation lies in
    [0, 1] after [reset] and after every sequence of steps. *)
Theorem reputation_in_unit_interval (e0 e : t G) obs (actions : list Z) :
  reset e0 = (e, inr obs) ->
  (0 <= start_reputation (user_properties e0) <= 1)%Q ->
  (0 <= user_reputation (steps e actions).1 <= 1)%Q.
Proof.
  intros Hreset Hstart.
  destruct (reset_returns _ _ _ Hreset) as (g & _ & ->).
  pose proof (episode_start_spec e0 g) as (_ & _ & _ & _ & _ & _ & Hrep & _).
  cbn zeta in Hrep. rewrite <- Hrep in Hstart. clear Hrep Hreset.
  revert Hstart. generalize (episode_start e0 g). clear e0 g.
  induction actions as [|a actions IH]; intros e Hrep.
  - exact Hrep.
  - rewrite steps_cons. apply IH, step_reputation_range, Hrep.
Qed.

(** Every step that applies a reputation change clamps the result, from
    whatever reputation it starts. *)
Lemma step_answered_clamps (e : t G) (action : Z) obs reward done info :
  (step e action).2 = Returned obs reward done info ->
  user_reputation (step e action).1 <> user_reputation e ->
  (0 <= user_reputation (step e action).1 <= 1)%Q.
Proof.
  unfold step, step_answer, step_switch.
  split_cases; simpl_env; intros _ Hne;
    first [contradiction Hne; reflexivity | apply clamp_range].
Qed.

(** ** Inactive tasks *)

Lemma receive_answer_settings (task : Task.t) (answer : Z) :
  Task.anti_cheat_settings (Task.receive_answer task answer).1
  = Task.anti_cheat_settings task.
Proof. unfold Task.receive_answer. split_cases; reflexivity. Qed.

Lemma give_new_instance_settings (task : Task.t) (g : G) :
  Task.anti_cheat_settings (Task.give_new_instance task g).1
  = Task.anti_cheat_settings task.
Proof.
  unfold Task.give_new_instance, Task.get_next_unlabeled_instance,
    Task.get_next_known_answer_instance.
  split_cases; reflexivity.
Qed.

Lemma is_active_reputation (task : Task.t) (r : Q) :
  Task.is_active task r = true ->
  Qge_bool r (min_reputation (Task.anti_cheat_settings task)) = true.
Proof.
  unfold Task.is_active. intros Ha.
  apply andb_true_iff in Ha as [_ Ha]. exact Ha.
Qed.

(** A task that is inactive although the reputation suffices is inactive
    by its counters, hence for every reputation. *)
Lemma is_active_false_counters (task : Task.t) (r r' : Q) :
  Task.is_active task r = false ->
  Qge_bool r (min_reputation (Task.anti_cheat_settings task)) = true ->
  Task.is_active task r' = false.
Proof.
  unfold Task.is_active. intros Hin Hr. rewrite Hr, andb_true_r in Hin.
  rewrite Hin. reflexivity.
Qed.

Lemma step_shared_settings (e : t G) (action : Z) :
  shared_settings e -> shared_settings (step e action).1.
Proof.
  unfold shared_settings, step, step_answer, step_switch. intros Hs.
  split_cases; simpl_env; try exact Hs;
    repeat match goal with
      | Hget : py_get (tasks e) _ = Some (_, ?task) |- _ =>
          apply py_get_Some in Hget as [Hget _];
          pose proof (Forall_lookup_1 _ _ _ _ Hs Hget)
      | Hr : Task.receive_answer ?task ?a = (?task', _) |- _ =>
          assert (Task.anti_cheat_settings task'
                  = Task.anti_cheat_settings task)
            by (rewrite <- (receive_answer_settings task a), Hr;
                reflexivity);
          clear Hr
      | Hg : Task.give_new_instance ?task ?g = (?task', _) |- _ =>
          assert (Task.anti_cheat_settings task'
                  = Task.anti_cheat_settings task)
            by (rewrite <- (give_new_instance_settings task g), Hg;
                reflexivity);
          clear Hg
      end;
    repeat apply Forall_insert; try exact Hs; cbn beta in *; congruence.
Qed.

(** A step leaves an inactive task as it is, and inactive: answers and new
    instances go to active tasks only, and while some task is inactive by
    reputation no task is active. *)
Lemma step_keeps_inactive (e : t G) (action : Z) (i : nat) (task : Task.t) :
  shared_settings e ->
  tasks e !! i = Some task ->
  Task.is_active task (user_reputation e) = false ->
  tasks (step e action).1 !! i = Some task
  /\ Task.is_active task (user_reputation (step e action).1) = false.
Proof.
  intros Hs Hi Hin. unfold step, step_answer, step_switch.
  split_cases; simpl_env; try (split; assumption);
    repeat match goal with
      | Hget : py_get (tasks e) _ = Some (_, _) |- _ =>
          apply py_get_Some in Hget as [Hget _]
      | Hb : _ || _ = false |- _ =>
          apply orb_false_iff in Hb as [_ Hb]
      | Hb : negb _ = false |- _ => apply negb_false_iff in Hb
      | Hb : negb _ = true |- _ => apply negb_true_iff in Hb
      end;
    match goal with
    | Hget : tasks e !! ?k = Some ?current,
      Hact : Task.is_active ?current (user_reputation e) = true |- _ =>
        destruct (decide (i = k)) as [-> | Hne];
          [congruence |];
        rewrite ?list_lookup_insert_ne by congruence;
        split; [assumption |];
        first
          [ assumption
          | apply (is_active_false_counters task (user_reputation e));
              [assumption |];
            apply is_active_reputation in Hact;
            pose proof (Forall_lookup_1 _ _ _ _ Hs Hi) as Htask;
            pose proof (Forall_lookup_1 _ _ _ _ Hs Hget) as Hcurrent;
            cbn beta in Htask, Hcurrent;
            rewrite Htask, <- Hcurrent;
            exact Hact ]
    end.
Qed.

Lemma steps_keep_inactive (e : t G) (actions : list Z) (i : nat)
    (task : Task.t) :
  shared_settings e ->
  tasks e !! i = Some task ->
  Task.is_active task (user_reputation e) = false ->
  tasks (steps e actions).1 !! i = Some task
  /\ Task.is_active task (user_reputation (steps e actions).1) = false.
Proof.
  revert e. induction actions as [|a actions IH]; intros e Hs Hi Hin.
  - split; assumption.
  - rewrite steps_cons.
    destruct (step_keeps_inactive e a i task Hs Hi Hin) as [Hi' Hin'].
    apply IH; [apply step_shared_settings, Hs | exact Hi' | exact Hin'].
Qed.

Lemma steps_shared_settings (e : t G) (actions : list Z) :
  shared_settings e -> shared_settings (steps e actions).1.
Proof.
  revert e. induction actions as [|a actions IH]; intros e Hs.
  - exact Hs.
  - rewrite steps_cons. apply IH, step_shared_settings, Hs.
Qed.

Lemma reset_shared_settings (e0 e : t G) obs :
  reset e0 = (e, inr obs) -> shared_settings e.
Proof.
  intros Hreset. destruct (reset_returns _ _ _ Hreset) as (g & _ & ->).
  pose proof (episode_start_spec e0 g) as (_ & Hinit & _ & Hacs & _).
  cbn zeta in Hinit, Hacs. unfold shared_settings. rewrite Hacs.
  eapply Forall_impl; [exact Hinit|].
  intros task [props ->]. reflexivity.
Qed.

(** C3: within an episode (the steps after a [reset]), a task found
    inactive for the current reputation after some steps is found
    inactive for the current reputation after any further steps. *)
Theorem inactive_stays_inactive (e0 e : t G) obs (actions1 actions2 : list Z)
    (i : nat) (task1 : Task.t) :
  reset e0 = (e, inr obs) ->
  tasks (steps e actions1).1 !! i = Some task1 ->
  Task.is_active task1 (user_reputation (steps e actions1).1) = false ->
  exists task2,
    tasks (steps e (actions1 ++ actions2)).1 !! i = Some task2
    /\ Task.is_active task2
         (user_reputation (steps e (actions1 ++ actions2)).1) = false.
Proof.
  intros Hreset Hi Hin. exists task1. rewrite steps_app.
  apply steps_keep_inactive; [| exact Hi | exact Hin].
  apply steps_shared_settings. eapply reset_shared_settings, Hreset.
Qed.

(** ** Determinism *)

Lemma seed_reset_forgets (e1 e2 : t G) (s : Z) :
  same_configuration e1 e2 -> reset (seed e1 s) = reset (seed e2 s).
Proof.
  intros (Hn & Ha & Hu & Hd & Hc).
  rewrite (reset_seeded (seed e1 s) (default_rng s)) by reflexivity.
  rewrite (reset_seeded (seed e2 s) (default_rng s)) by reflexivity.
  assert (Heq : episode_start (seed e1 s) (default_rng s)
                = episode_start (seed e2 s) (default_rng s)).
  { unfold episode_start, seed. simpl_env. rewrite Hn, Ha, Hu, Hd, Hc.
    reflexivity. }
  rewrite Heq. reflexivity.
Qed.

(** C2: two runs [seed(s); reset(); step(a1); step(a2); ...] of an
    environment with the same configuration, whatever state each run
    starts from, produce the same initial observation and the same
    sequence of step results (observation, reward, done flag and info, or
    the same failure). *)
Theorem seeded_runs_agree (e1 e2 : t G) (s : Z) (actions : list Z) :
  same_configuration e1 e2 ->
  run e1 s actions = run e2 s actions.
Proof.
  intros Hc. unfold run. rewrite (seed_reset_forgets e1 e2 s Hc).
  reflexivity.
Qed.

(** ** Totality of [step] *)

Lemma receive_answer_returns (task : Task.t) (answer : Z) :
  is_Some (Task.mode task) -> is_Some (Task.current_instance task) ->
  exists task' delta,
    Task.receive_answer task answer = (task', inr delta).
Proof.
  intros [m Hm] [inst Hinst]. unfold Task.receive_answer. rewrite Hm.
  destruct m; cbn [Task.current_instance Task.set_instance_counter
                   Task.set_real_instance_counter];
    rewrite Hinst; destruct (negb _); eexists _, _; reflexivity.
Qed.

Lemma give_new_instance_poses (task : Task.t) (g : G) :
  is_Some (Task.mode (Task.give_new_instance task g).1)
  /\ is_Some (Task.current_instance (Task.give_new_instance task g).1).
Proof.
  unfold Task.give_new_instance, Task.get_next_unlabeled_instance,
    Task.get_next_known_answer_instance.
  split_cases; cbn; split; eexists; reflexivity.
Qed.

Lemma choose_answer_returns (e : t G) (action : Z) (task : Task.t) (g : G) :
  is_Some (Task.current_instance task) ->
  exists chosen g', choose_answer e action task g = (inr chosen, g').
Proof.
  intros [inst Hinst]. unfold choose_answer. rewrite Hinst.
  split_cases; eexists _, _; reflexivity.
Qed.

Lemma well_formed_last_action (e : t G) (a : option Z) :
  well_formed e -> well_formed (set_last_action a e).
Proof. intros Hwf. exact Hwf. Qed.

Lemma step_answer_total (e : t G) (action : Z) (k : nat)
    (current_task : Task.t) :
  well_formed e ->
  py_get (tasks e) (current_task_idx e) = Some (k, current_task) ->
  (exists obs reward done info,
     (step_answer e action k current_task).2 = Returned obs reward done info)
  /\ well_formed (step_answer e action k current_task).1.
Proof.
  intros (Hlen & Hidx & [g Hg] & Hposed) Hget.
  apply py_get_Some in Hget as (Hk & Hpos & _).
  unfold step_answer.
  destruct (_ || _) eqn:Hno.
  { split; [eexists _, _, _, _; reflexivity|].
    unfold well_formed. simpl_env.
    split; [lia|]. split; [lia|]. split; [eexists; eassumption|].
    exact Hposed. }
  apply orb_false_iff in Hno as [Hsel _].
  assert (Hnonneg : 0 <= current_task_idx e) by lia.
  specialize (Hpos Hnonneg).
  assert (Hkz : Z.to_nat (current_task_idx e) = k) by lia.
  destruct (Hposed current_task Hnonneg) as [Hmode Hinst];
    [rewrite Hkz; exact Hk|].
  rewrite Hg.
  destruct (choose_answer_returns e action current_task g Hinst)
    as ([[time_spent answer] reward] & g1 & ->).
  destruct (receive_answer_returns current_task answer Hmode Hinst)
    as (task1 & delta & ->).
  simpl_env.
  assert (Hklt : (k < length (tasks e))%nat)
    by (eapply lookup_lt_Some; eassumption).
  destruct (negb _).
  - split; [eexists _, _, _, _; reflexivity|].
    unfold well_formed. simpl_env. rewrite length_insert.
    split; [lia|]. split; [lia|]. split; [eexists; reflexivity|].
    intros task Hn. lia.
  - destruct (Task.give_new_instance task1 g1) as [task2 g2] eqn:Hnew.
    split; [eexists _, _, _, _; reflexivity|].
    pose proof (give_new_instance_poses task1 g1) as Hposes.
    rewrite Hnew in Hposes. cbn [fst] in Hposes.
    unfold well_formed. simpl_env. rewrite !length_insert.
    split; [lia|]. split; [lia|]. split; [eexists; reflexivity|].
    intros task _ Htask.
    rewrite Hkz, list_lookup_insert_eq in Htask
      by (rewrite length_insert; exact Hklt).
    injection Htask as <-. exact Hposes.
Qed.

Lemma step_switch_total (e : t G) (action : Z) :
  well_formed e ->
  SWITCH_TASK0 <= action <= num_tasks e + 2 ->
  (exists obs reward done info,
     (step_switch e action).2 = Returned obs reward done info)
  /\ well_formed (step_switch e action).1.
Proof.
  intros (Hlen & Hidx & [g Hg] & Hposed) Ha. unfold SWITCH_TASK0 in *.
  destruct (py_get_in_range (tasks e) (action - 3)) as (k & task & Hget);
    [lia|].
  unfold step_switch, SWITCH_TASK0. simpl_env. rewrite Hget.
  apply py_get_Some in Hget as (Hk & Hpos & _).
  specialize (Hpos ltac:(lia)).
  assert (Hklt : (k < length (tasks e))%nat)
    by (eapply lookup_lt_Some; eassumption).
  destruct (negb _).
  - split; [eexists _, _, _, _; reflexivity|].
    unfold well_formed. simpl_env.
    split; [lia|]. split; [lia|]. split; [eexists; eassumption|].
    intros task' Hn. lia.
  - rewrite Hg.
    destruct (Task.give_new_instance task g) as [task1 g1] eqn:Hnew.
    split; [eexists _, _, _, _; reflexivity|].
    pose proof (give_new_instance_poses task g) as Hposes.
    rewrite Hnew in Hposes. cbn [fst] in Hposes.
    unfold well_formed. simpl_env. rewrite length_insert.
    split; [lia|]. split; [lia|]. split; [eexists; reflexivity|].
    intros task' _ Htask.
    replace (Z.to_nat (action - 3)) with k in Htask by lia.
    rewrite list_lookup_insert_eq in Htask by exact Hklt.
    injection Htask as <-. exact Hposes.
Qed.

(** C10: in a well-formed state every action of the action space
    [0 .. num_tasks + 2] makes [step] return a 4-tuple and leave a
    well-formed state, every access to the task list being in bounds (for
    the answer actions the task list must not be empty, since
    [tasks[current_task_idx]] is read before the selection is tested);
    outside the action space nothing rejects the action: in a step that
    does not end the episode, [action >= num_tasks + 3] raises
    [IndexError] at a task-list access and [action < 0] falls through all
    branches and returns nothing. *)
Theorem step_total_on_action_space (e : t G) (action : Z) :
  well_formed e ->
  (0 <= action <= num_tasks e + 2 ->
   (action = ACTION_ANS_RND \/ action = ACTION_ANS_INTENT -> tasks e <> []) ->
   (exists obs reward done info,
      (step e action).2 = Returned obs reward done info)
   /\ well_formed (step e action).1)
  /\ (~ (time_budget (user_properties e) < overall_time_spent e)%Q ->
      num_tasks e + 3 <= action ->
      (step e action).2 = Raised IndexError)
  /\ (~ (time_budget (user_properties e) < overall_time_spent e)%Q ->
      action < 0 -> tasks e <> [] ->
      step e action = (set_last_action (Some action) e, ReturnedNone)).
Proof.
  intros Hwf.
  pose proof Hwf as (Hlen & Hidx & Hgen & Hposed).
  split; [| split].
  - intros Ha Hnonempty. unfold step.
    destruct (action =? ACTION_QUIT) eqn:Hq.
    { split; [eexists _, _, _, _; reflexivity | exact Hwf]. }
    destruct (Qlt_bool _ _).
    { split; [eexists _, _, _, _; reflexivity | exact Hwf]. }
    unfold ACTION_QUIT, ACTION_ANS_RND, ACTION_ANS_INTENT in *.
    assert (Hne : tasks e <> []).
    { destruct (Z.eq_dec action 1); [auto|].
      destruct (Z.eq_dec action 2); [auto|].
      intros Hnil. rewrite Hnil in Hlen. cbn in Hlen. lia. }
    assert (Hpos : (0 < length (tasks e))%nat)
      by (destruct (tasks e); [contradiction | cbn; lia]).
    destruct (py_get_in_range (tasks e) (current_task_idx e))
      as (k & current_task & Hget); [lia|].
    simpl_env. rewrite Hget.
    destruct (_ || _) eqn:Hanswer.
    + apply step_answer_total; [exact Hwf | exact Hget].
    + apply orb_false_iff in Hanswer as [H1 H2].
      replace (SWITCH_TASK0 <=? action) with true
        by (unfold SWITCH_TASK0; lia).
      apply step_switch_total; [exact Hwf |].
      unfold SWITCH_TASK0. simpl_env. lia.
  - intros Hbudget Ha. unfold step.
    replace (action =? ACTION_QUIT) with false by (unfold ACTION_QUIT; lia).
    destruct (Qlt_bool _ _) eqn:Hlt;
      [apply Qlt_bool_true in Hlt; contradiction|].
    simpl_env.
    destruct (py_get (tasks e) (current_task_idx e)) as [[k task]|];
      [| reflexivity].
    replace ((action =? ACTION_ANS_RND) || (action =? ACTION_ANS_INTENT))
      with false
      by (symmetry; apply orb_false_iff;
          unfold ACTION_ANS_RND, ACTION_ANS_INTENT; lia).
    replace (SWITCH_TASK0 <=? action) with true
      by (unfold SWITCH_TASK0; lia).
    unfold step_switch. simpl_env.
    rewrite py_get_out_of_range by (unfold SWITCH_TASK0; lia).
    reflexivity.
  - intros Hbudget Ha Hne. unfold step.
    replace (action =? ACTION_QUIT) with false by (unfold ACTION_QUIT; lia).
    destruct (Qlt_bool _ _) eqn:Hlt;
      [apply Qlt_bool_true in Hlt; contradiction|].
    simpl_env.
    assert (Hpos : (0 < length (tasks e))%nat)
      by (destruct (tasks e); [contradiction | cbn; lia]).
    destruct (py_get_in_range (tasks e) (current_task_idx e))
      as (k & current_task & ->); [lia|].
    replace ((action =? ACTION_ANS_RND) || (action =? ACTION_ANS_INTENT))
      with false
      by (symmetry; apply orb_false_iff;
          unfold ACTION_ANS_RND, ACTION_ANS_INTENT; lia).
    replace (SWITCH_TASK0 <=? action) with false
      by (unfold SWITCH_TASK0; lia).
    reflexivity.
Qed.

(** [reset] on a seeded environment made by [__init__] leaves a
    well-formed state. *)
Lemma reset_well_formed (e0 e : t G) obs :
  num_tasks e0 = Z.of_nat (length (tasks_properties_distributions e0)) ->
  reset e0 = (e, inr obs) ->
  well_formed e.
Proof.
  intros Hn Hreset. destruct (reset_returns _ _ _ Hreset) as (g & _ & ->).
  pose proof (episode_start_spec e0 g)
    as (Hlen & _ & _ & _ & Hnum & _ & _ & Hidx & _ & Hgen).
  cbn zeta in *. unfold well_formed. rewrite Hlen, Hnum, Hidx.
  split; [lia|]. split; [lia|]. split; [exact Hgen|].
  intros task Hneg. lia.
Qed.

End Claims.

(** * Further properties of the code *)

Section Further.
Context {G : Type} `{Generator G}.

Import UserModelEnv.

(** ** The task state machine *)

Lemma receive_answer_frame (task : Task.t) (answer : Z) :
  let task' := (Task.receive_answer task answer).1 in
  Task.properties task' = Task.properties task
  /\ Task.anti_cheat_settings task' = Task.anti_cheat_settings task
  /\ Task.mode task' = Task.mode task
  /\ Task.current_instance task' = Task.current_instance task
  /\ Task.instance_counter task <= Task.instance_counter task'
     <= Task.instance_counter task + 1
  /\ Task.real_instance_counter task <= Task.real_instance_counter task'
     <= Task.real_instance_counter task + 1
  /\ Task.qa_false_counter task <= Task.qa_false_counter task'
     <= Task.qa_false_counter task + 1
  /\ Task.real_instance_counter task' + Task.qa_false_counter task'
     - (Task.real_instance_counter task + Task.qa_false_counter task)
     <= Task.instance_counter task' - Task.instance_counter task.
Proof.
  cbn zeta. unfold Task.receive_answer.
  split_cases; simpl_task; repeat split; first [lia | congruence].
Qed.

Lemma give_new_instance_fields (task : Task.t) (g : G) :
  let task' := (Task.give_new_instance task g).1 in
  Task.properties task' = Task.properties task
  /\ Task.anti_cheat_settings task' = Task.anti_cheat_settings task
  /\ Task.instance_counter task' = Task.instance_counter task
  /\ Task.real_instance_counter task' = Task.real_instance_counter task
  /\ Task.qa_false_counter task' = Task.qa_false_counter task
  /\ Task.last_response_type task' = Task.last_response_type task.
Proof.
  cbn zeta.
  unfold Task.give_new_instance, Task.get_next_unlabeled_instance,
    Task.get_next_known_answer_instance.
  split_cases; simpl_task; repeat split; congruence.
Qed.

Lemma is_active_fields (task task' : Task.t) (r : Q) :
  Task.properties task' = Task.properties task ->
  Task.anti_cheat_settings task' = Task.anti_cheat_settings task ->
  Task.real_instance_counter task' = Task.real_instance_counter task ->
  Task.qa_false_counter task' = Task.qa_false_counter task ->
  Task.is_active task' r = Task.is_active task r.
Proof.
  intros Hp Ha Hr Hq. unfold Task.is_active. rewrite Hp, Ha, Hr, Hq.
  reflexivity.
Qed.

Lemma Qlt_bool_inject_mono (a b : Z) (q : Q) :
  a <= b -> Qlt_bool (inject_Z a) q = false -> Qlt_bool (inject_Z b) q = false.
Proof.
  intros Hab Hf. apply Qlt_bool_false in Hf. apply Qlt_bool_false.
  apply Qle_trans with (inject_Z a); [exact Hf|].
  rewrite <- Zle_Qle. exact Hab.
Qed.

(** X1: an answer never reactivates a task: a task that is inactive for
    a reputation is still inactive for it after [receive_answer], whatever
    the answer and whether or not the call fails. *)
Theorem receive_answer_keeps_inactive (task : Task.t) (answer : Z) (r : Q) :
  Task.is_active task r = false ->
  Task.is_active (Task.receive_answer task answer).1 r = false.
Proof.
  intros Hin.
  pose proof (receive_answer_frame task answer)
    as (Hp & Ha & _ & _ & _ & Hr & Hq & _).
  cbn zeta in *. unfold Task.is_active in *. rewrite Hp, Ha.
  apply andb_false_iff in Hin as [Hin | Hin];
    [apply andb_false_iff in Hin as [Hin | Hin] |].
  - rewrite (Qlt_bool_inject_mono _ _ _ (proj1 Hr) Hin). reflexivity.
  - replace (_ <? _) with false by lia. rewrite andb_false_r. reflexivity.
  - rewrite Hin. apply andb_false_r.
Qed.

(** X2: the failed gold question that reaches [qa_false_max] deactivates
    the task whatever the reputation: a wrong answer in quality-control
    mode, when [qa_false_counter + 1 >= qa_false_max], leaves the task
    inactive. *)
Theorem last_gold_failure_deactivates (task : Task.t) (answer : Z)
    (inst : Instance) (r : Q) :
  Task.mode task = Some QUALITY_CONTROL_MODE ->
  Task.current_instance task = Some inst ->
  answer <> true_label inst ->
  qa_false_max (Task.anti_cheat_settings task)
  <= Task.qa_false_counter task + 1 ->
  Task.qa_false_counter (Task.receive_answer task answer).1
  = Task.qa_false_counter task + 1
  /\ Task.is_active (Task.receive_answer task answer).1 r = false.
Proof.
  intros Hm Hi Hne Hmax. unfold Task.receive_answer. rewrite Hm.
  cbn [Task.current_instance Task.set_instance_counter]. rewrite Hi.
  replace (answer =? true_label inst) with false by lia.
  cbn [negb fst]. split; [reflexivity|].
  unfold Task.is_active. cbn.
  replace (_ <? _) with false by lia.
  rewrite andb_false_r. reflexivity.
Qed.

(** X3: [give_new_instance] poses a question and touches nothing else: it
    sets the mode and the instance, leaves the properties, the settings,
    the counters and the status, hence the activity of the task; and it
    advances the generator by one [random()] and one [integers()] draw in
    both modes. *)
Theorem give_new_instance_frame (task : Task.t) (g : G) :
  let task' := (Task.give_new_instance task g).1 in
  Task.properties task' = Task.properties task
  /\ Task.anti_cheat_settings task' = Task.anti_cheat_settings task
  /\ Task.instance_counter task' = Task.instance_counter task
  /\ Task.real_instance_counter task' = Task.real_instance_counter task
  /\ Task.qa_false_counter task' = Task.qa_false_counter task
  /\ Task.last_response_type task' = Task.last_response_type task
  /\ is_Some (Task.mode task')
  /\ Task.current_instance task'
     = Some (Instance_init
               (rng_integers 0 (num_classes (Task.properties task))
                             (rng_random g).2).1)
  /\ (forall r, Task.is_active task' r = Task.is_active task r)
  /\ (Task.give_new_instance task g).2
     = (rng_integers 0 (num_classes (Task.properties task))
                     (rng_random g).2).2.
Proof.
  unfold Task.give_new_instance, Task.get_next_unlabeled_instance,
    Task.get_next_known_answer_instance.
  destruct (rng_random g) as [u g1]. cbn [snd].
  destruct (Qlt_bool u _);
    cbn [Task.properties Task.set_mode];
    destruct (rng_integers 0 _ g1) as [l g2];
    cbn; repeat split; eexists; reflexivity.
Qed.

(** ** What a step does to the tasks *)

Lemma task_steps_same (r : Q) (l : list Task.t) :
  Forall2 (task_step (G := G) r) l l.
Proof. induction l; constructor; [apply task_same | assumption]. Qed.

Lemma task_steps_insert (r : Q) (l : list Task.t) (k : nat)
    (task task' : Task.t) :
  l !! k = Some task -> task_step (G := G) r task task' ->
  Forall2 (task_step (G := G) r) l (<[k := task']> l).
Proof.
  revert k. induction l as [|x l IH]; intros k Hk Hstep; [discriminate|].
  destruct k as [|k]; cbn in *.
  - injection Hk as ->. constructor; [exact Hstep | apply task_steps_same].
  - constructor; [apply task_same | apply IH; assumption].
Qed.

(** Every step leaves each task as it is or, if the task is active for
    the reputation before the step, answers it, poses a new question, or
    both; the task list keeps its length and order. *)
Lemma step_tasks (e : t G) (action : Z) :
  Forall2 (task_step (user_reputation e)) (tasks e) (tasks (step e action).1).
Proof.
  unfold step, step_answer, step_switch.
  split_cases; simpl_env; try apply task_steps_same;
    repeat match goal with
      | Hget : py_get (tasks e) _ = Some (_, _) |- _ =>
          apply py_get_Some in Hget as [Hget _]
      | Hb : _ || _ = false |- _ =>
          apply orb_false_iff in Hb as [_ Hb]
      | Hb : negb _ = false |- _ => apply negb_false_iff in Hb
      | Hb : negb _ = true |- _ => apply negb_true_iff in Hb
      | Hr : Task.receive_answer ?task ?a = (?task', _) |- _ =>
          assert (task' = (Task.receive_answer task a).1)
            by (rewrite Hr; reflexivity);
          clear Hr; subst task'
      | Hg : Task.give_new_instance ?task ?g = (?task', _) |- _ =>
          assert (task' = (Task.give_new_instance task g).1)
            by (rewrite Hg; reflexivity);
          clear Hg; subst task'
      end;
    rewrite ?list_insert_insert_eq;
    match goal with
    | Hget : tasks e !! ?k = Some ?current,
      Hact : Task.is_active ?current (user_reputation e) = true
      |- Forall2 _ _ (<[?k := _]> _) =>
        apply (task_steps_insert _ _ k current); [exact Hget |];
        first [ apply task_answered_new; exact Hact
              | apply task_answered; exact Hact
              | apply task_new; exact Hact ]
    end.
Qed.

Lemma steps_one (e : t G) (actions : list Z) (a : Z) :
  (steps e (actions ++ [a])).1 = (step (steps e actions).1 a).1.
Proof.
  rewrite steps_app. cbn [steps]. destruct (step _ a). reflexivity.
Qed.

(** A property kept by every step holds along every run. *)
Lemma run_invariant (P : t G -> Prop) (e : t G) (actions : list Z) :
  P e -> (forall e a, P e -> P (step e a).1) -> P (steps e actions).1.
Proof.
  intros He Hstep. induction actions as [|a actions IH] using rev_ind.
  - exact He.
  - rewrite steps_one. apply Hstep, IH.
Qed.

(** A step leaves what [__init__] fixes, and the slot map, as they are. *)
Lemma step_configuration (e : t G) (action : Z) :
  user_properties (step e action).1 = user_properties e
  /\ anti_cheat_settings (step e action).1 = anti_cheat_settings e
  /\ tasks_properties_distributions (step e action).1
     = tasks_properties_distributions e
  /\ num_tasks (step e action).1 = num_tasks e
  /\ num_actions (step e action).1 = num_actions e
  /\ task_task_dist_map (step e action).1 = task_task_dist_map e.
Proof.
  unfold step, step_answer, step_switch.
  split_cases; simpl_env; repeat split.
Qed.

Lemma reset_fresh_tasks (e0 e : t G) obs :
  reset e0 = (e, inr obs) ->
  Forall (fun task => exists props,
            task = Task.init props (anti_cheat_settings e0)) (tasks e).
Proof.
  intros Hreset. destruct (reset_returns _ _ _ Hreset) as (g & _ & ->).
  apply (episode_start_spec e0 g).
Qed.

(** ** The counters of a task *)

Lemma task_step_counters_ok (r : Q) (task task' : Task.t) :
  task_step (G := G) r task task' -> counters_ok task -> counters_ok task'.
Proof.
  unfold counters_ok.
  intros Hstep (Hq & Hr & Hsum); destruct Hstep as [| g _ | a _ | a g _];
    try pose proof (receive_answer_frame task a : _ /\ _)
      as (_ & _ & _ & _ & Hi' & Hr' & Hq' & Hsum');
    try pose proof (give_new_instance_fields task g : _ /\ _)
      as (_ & _ & Hgi & Hgr & Hgq & _);
    try pose proof (give_new_instance_fields
                      (Task.receive_answer task a).1 g : _ /\ _)
      as (_ & _ & Hgi2 & Hgr2 & Hgq2 & _);
    lia.
Qed.

Lemma step_counters_ok (e : t G) (action : Z) :
  Forall counters_ok (tasks e) -> Forall counters_ok (tasks (step e action).1).
Proof.
  intros Hall. pose proof (step_tasks e action) as Hsteps.
  revert Hall. induction Hsteps as [|task task' l l' Hstep _ IH];
    intros Hall; [constructor|].
  inversion Hall; subst. constructor; [| apply IH; assumption].
  eapply task_step_counters_ok; eassumption.
Qed.

(** X4: along every run from a [reset], the counters of every task are
    consistent: [qa_false_counter] and [real_instance_counter] are not
    negative and together do not exceed [instance_counter]; in particular
    [real_instance_counter <= instance_counter]. *)
Theorem run_counters_consistent (e0 e : t G) obs (actions : list Z)
    (i : nat) (task : Task.t) :
  reset e0 = (e, inr obs) ->
  tasks (steps e actions).1 !! i = Some task ->
  0 <= Task.qa_false_counter task
  /\ 0 <= Task.real_instance_counter task <= Task.instance_counter task
  /\ Task.real_instance_counter task + Task.qa_false_counter task
     <= Task.instance_counter task.
Proof.
  intros Hreset Hi.
  assert (Hall : Forall counters_ok (tasks (steps e actions).1)).
  { apply (run_invariant (fun e => Forall counters_ok (tasks e)));
      [| apply step_counters_ok].
    eapply Forall_impl; [eapply reset_fresh_tasks, Hreset|].
    intros task0 [props ->]. unfold counters_ok. cbn. lia. }
  pose proof (Forall_lookup_1 _ _ _ _ Hall Hi) as (Hq & Hr & Hsum).
  lia.
Qed.

Lemma task_step_frame (r : Q) (task task' : Task.t) :
  task_step (G := G) r task task' ->
  Task.properties task' = Task.properties task
  /\ Task.anti_cheat_settings task' = Task.anti_cheat_settings task.
Proof.
  intros Hstep; destruct Hstep as [| g _ | a _ | a g _];
    try pose proof (receive_answer_frame task a : _ /\ _)
      as (Hp & Ha & _);
    try pose proof (give_new_instance_fields task g : _ /\ _)
      as (Hgp & Hga & _);
    try pose proof (give_new_instance_fields
                      (Task.receive_answer task a).1 g : _ /\ _)
      as (Hgp2 & Hga2 & _);
    split; congruence.
Qed.

Lemma task_step_within_caps (r : Q) (task task' : Task.t) :
  task_step (G := G) r task task' -> within_caps task -> within_caps task'.
Proof.
  intros Hstep Hcaps.
  assert (Hanswer : forall a, Task.is_active task r = true ->
                              within_caps (Task.receive_answer task a).1).
  { intros a Hact.
    pose proof (receive_answer_frame task a : _ /\ _)
      as (Hp & Ha & _ & _ & _ & Hr & Hq & _).
    unfold Task.is_active in Hact.
    apply andb_true_iff in Hact as [Hact _].
    apply andb_true_iff in Hact as [Hreal Hqa].
    apply Qlt_bool_true in Hreal. apply Z.ltb_lt in Hqa.
    destruct Hcaps as [Hc1 Hc2]. unfold within_caps. rewrite Hp, Ha. split.
    - right. lia.
    - destruct (Z.eq_dec (Task.real_instance_counter
                            (Task.receive_answer task a).1)
                         (Task.real_instance_counter task)) as [-> | Hne];
        [exact Hc2|].
      right.
      replace (Task.real_instance_counter (Task.receive_answer task a).1 - 1)
        with (Task.real_instance_counter task) by lia.
      exact Hreal. }
  assert (Hnew : forall task0 g,
             within_caps task0 ->
             within_caps (Task.give_new_instance task0 g).1).
  { intros task0 g Hc.
    pose proof (give_new_instance_fields task0 g : _ /\ _)
      as (Hp & Ha & _ & Hr & Hq & _).
    unfold within_caps. rewrite Hp, Ha, Hr, Hq. exact Hc. }
  destruct Hstep as [| g _ | a Hact | a g Hact]; auto.
Qed.

Lemma step_within_caps (e : t G) (action : Z) :
  Forall within_caps (tasks e) -> Forall within_caps (tasks (step e action).1).
Proof.
  intros Hall. pose proof (step_tasks e action) as Hsteps.
  revert Hall. induction Hsteps as [|task task' l l' Hstep _ IH];
    intros Hall; [constructor|].
  inversion Hall; subst. constructor; [| apply IH; assumption].
  eapply task_step_within_caps; eassumption.
Qed.

(** X5: along every run from a [reset], no task goes past its caps: a
    task with failed gold questions has at most [qa_false_max] of them,
    and a task with real answers accepted the last one while
    [real_instance_counter] was below [target_num_instances]. *)
Theorem run_within_caps (e0 e : t G) obs (actions : list Z)
    (i : nat) (task : Task.t) :
  reset e0 = (e, inr obs) ->
  tasks (steps e actions).1 !! i = Some task ->
  (Task.qa_false_counter task = 0
   \/ Task.qa_false_counter task <= qa_false_max (anti_cheat_settings e0))
  /\ (Task.real_instance_counter task = 0
      \/ (inject_Z (Task.real_instance_counter task - 1)
          < target_num_instances (Task.properties task))%Q).
Proof.
  intros Hreset Hi.
  assert (Hall : Forall within_caps (tasks (steps e actions).1)).
  { apply (run_invariant (fun e => Forall within_caps (tasks e)));
      [| apply step_within_caps].
    eapply Forall_impl; [eapply reset_fresh_tasks, Hreset|].
    intros task0 [props ->]. split; left; reflexivity. }
  assert (Hacs : Task.anti_cheat_settings task = anti_cheat_settings e0).
  { assert (Hinit : Forall (fun task => Task.anti_cheat_settings task
                                        = anti_cheat_settings e0)
                           (tasks (steps e actions).1)).
    { apply (run_invariant
               (fun e => Forall (fun task => Task.anti_cheat_settings task
                                             = anti_cheat_settings e0)
                                (tasks e))).
      - eapply Forall_impl; [eapply reset_fresh_tasks, Hreset|].
        intros task0 [props ->]. reflexivity.
      - intros e1 a Hall1. pose proof (step_tasks e1 a) as Hsteps.
        revert Hall1. induction Hsteps as [|t1 t2 l l' Hstep _ IH];
          intros Hall1; [constructor|].
        inversion Hall1; subst. constructor; [| apply IH; assumption].
        destruct (task_step_frame _ _ _ Hstep) as [_ Ha]. congruence. }
    exact (Forall_lookup_1 _ _ _ _ Hinit Hi). }
  pose proof (Forall_lookup_1 _ _ _ _ Hall Hi) as Hcaps.
  unfold within_caps in Hcaps. rewrite Hacs in Hcaps. exact Hcaps.
Qed.

(** ** The selected task *)

Lemma py_get_None_nonneg {A : Type} (l : list A) (i : Z) :
  0 <= i -> py_get l i = None -> l !! Z.to_nat i = None.
Proof.
  intros Hi Hget. destruct (l !! Z.to_nat i) as [x|] eqn:Hl; [|reflexivity].
  rewrite (py_get_nonneg l i x Hi Hl) in Hget. discriminate.
Qed.

Lemma step_answer_ready (e : t G) (action : Z) (k : nat)
    (current_task : Task.t) :
  selected_ready e ->
  py_get (tasks e) (current_task_idx e) = Some (k, current_task) ->
  selected_ready (step_answer e action k current_task).1
  /\ exists obs reward done info,
       (step_answer e action k current_task).2
       = Returned obs reward done info.
Proof.
  intros ([g Hg] & Hidx & Hsel) Hget.
  apply py_get_Some in Hget as (Hk & Hpos & _).
  unfold step_answer.
  destruct (_ || _) eqn:Hno.
  { split; [| eexists _, _, _, _; reflexivity].
    unfold selected_ready. simpl_env.
    split; [eexists; eassumption|]. split; [lia|]. exact Hsel. }
  apply orb_false_iff in Hno as [Hne _].
  assert (Hnonneg : 0 <= current_task_idx e) by lia.
  specialize (Hpos Hnonneg).
  destruct (Hsel k current_task Hpos Hk) as (_ & Hmode & Hinst).
  rewrite Hg.
  destruct (choose_answer_returns e action current_task g Hinst)
    as ([[time_spent answer] reward] & g1 & ->).
  destruct (receive_answer_returns current_task answer Hmode Hinst)
    as (task1 & delta & ->).
  simpl_env.
  assert (Hklt : (k < length (tasks e))%nat)
    by (eapply lookup_lt_Some; eassumption).
  destruct (negb _) eqn:Hact.
  - split; [| eexists _, _, _, _; reflexivity].
    unfold selected_ready. simpl_env.
    split; [eexists; reflexivity|]. split; [lia|].
    intros k' task' Hk'. lia.
  - apply negb_false_iff in Hact.
    destruct (Task.give_new_instance task1 g1) as [task2 g2] eqn:Hnew.
    split; [| eexists _, _, _, _; reflexivity].
    pose proof (give_new_instance_poses task1 g1) as Hposes.
    pose proof (give_new_instance_fields task1 g1 : _ /\ _)
      as (Hp & Ha & _ & Hr & Hq & _).
    rewrite Hnew in Hposes, Hp, Ha, Hr, Hq. cbn [fst] in *.
    unfold selected_ready. simpl_env.
    split; [eexists; reflexivity|]. split; [lia|].
    intros k' task' Hk' Htask'.
    assert (k' = k) by lia. subst k'.
    rewrite list_lookup_insert_eq in Htask'
      by (rewrite length_insert; exact Hklt).
    injection Htask' as <-.
    split; [| exact Hposes].
    rewrite (is_active_fields task1 task2) by assumption. exact Hact.
Qed.

Lemma step_switch_ready (e : t G) (action : Z) :
  selected_ready e ->
  SWITCH_TASK0 <= action ->
  selected_ready (step_switch e action).1
  /\ ((step_switch e action).2 = Raised IndexError
      \/ exists obs reward done info,
           (step_switch e action).2 = Returned obs reward done info).
Proof.
  intros ([g Hg] & Hidx & Hsel) Ha. unfold SWITCH_TASK0 in *.
  unfold step_switch, SWITCH_TASK0. simpl_env.
  destruct (py_get (tasks e) (action - 3)) as [[k task]|] eqn:Hget.
  - apply py_get_Some in Hget as (Hk & Hpos & _).
    specialize (Hpos ltac:(lia)).
    assert (Hklt : (k < length (tasks e))%nat)
      by (eapply lookup_lt_Some; eassumption).
    destruct (negb _) eqn:Hact.
    + split; [| right; eexists _, _, _, _; reflexivity].
      unfold selected_ready. simpl_env.
      split; [eexists; eassumption|]. split; [lia|].
      intros k' task' Hk'. lia.
    + apply negb_false_iff in Hact. rewrite Hg.
      destruct (Task.give_new_instance task g) as [task1 g1] eqn:Hnew.
      split; [| right; eexists _, _, _, _; reflexivity].
      pose proof (give_new_instance_poses task g) as Hposes.
      pose proof (give_new_instance_fields task g : _ /\ _)
        as (Hp & Hacs & _ & Hr & Hq & _).
      rewrite Hnew in Hposes, Hp, Hacs, Hr, Hq. cbn [fst] in *.
      unfold selected_ready. simpl_env.
      split; [eexists; reflexivity|]. split; [lia|].
      intros k' task' Hk' Htask'.
      assert (k' = k) by lia. subst k'.
      rewrite list_lookup_insert_eq in Htask' by exact Hklt.
      injection Htask' as <-.
      split; [| exact Hposes].
      rewrite (is_active_fields task task1) by assumption. exact Hact.
  - split; [| left; reflexivity].
    unfold selected_ready. simpl_env.
    split; [eexists; eassumption|]. split; [lia|].
    intros k' task' Hk' Htask'.
    apply py_get_None_nonneg in Hget; [| lia].
    replace (Z.to_nat (action - 3)) with k' in Hget by lia.
    congruence.
Qed.

Lemma step_ready (e : t G) (action : Z) :
  selected_ready e ->
  selected_ready (step e action).1
  /\ forall x, (step e action).2 = Raised x -> x = IndexError.
Proof.
  intros Hready. unfold step.
  destruct (action =? ACTION_QUIT);
    [split; [exact Hready | discriminate]|].
  destruct (Qlt_bool _ _); [split; [exact Hready | discriminate]|].
  simpl_env.
  destruct (py_get (tasks e) (current_task_idx e)) as [[k task]|] eqn:Hget;
    [| split; [exact Hready | intros x [= <-]; reflexivity]].
  destruct (_ || _).
  - destruct (step_answer_ready (set_last_action (Some action) e) action
                k task Hready Hget) as [Hr (obs & r & d & i & ->)].
    split; [exact Hr | discriminate].
  - destruct (SWITCH_TASK0 <=? action) eqn:Hs;
      [| split; [exact Hready | discriminate]].
    destruct (step_switch_ready (set_last_action (Some action) e) action
                Hready ltac:(lia)) as [Hr [-> | (obs & r & d & i & ->)]].
    + split; [exact Hr | intros x [= <-]; reflexivity].
    + split; [exact Hr | discriminate].
Qed.

Lemma reset_ready (e0 e : t G) obs :
  reset e0 = (e, inr obs) -> selected_ready e.
Proof.
  intros Hreset. destruct (reset_returns _ _ _ Hreset) as (g & _ & ->).
  pose proof (episode_start_spec e0 g)
    as (_ & _ & _ & _ & _ & _ & _ & Hidx & _ & Hgen).
  cbn zeta in *. unfold selected_ready. rewrite Hidx.
  split; [exact Hgen|]. split; [lia|]. intros k task Hk. lia.
Qed.

(** X6: along every run from a [reset], whatever the actions, the
    selected task (when [current_task_idx] is a position of the task
    list) is active for the current reputation and has a mode and a
    current instance: a task is deselected in the very step that
    deactivates it. *)
Theorem selected_task_is_active (e0 e : t G) obs (actions : list Z)
    (k : nat) (task : Task.t) :
  reset e0 = (e, inr obs) ->
  current_task_idx (steps e actions).1 = Z.of_nat k ->
  tasks (steps e actions).1 !! k = Some task ->
  Task.is_active task (user_reputation (steps e actions).1) = true
  /\ is_Some (Task.mode task)
  /\ is_Some (Task.current_instance task).
Proof.
  intros Hreset Hk Htask.
  assert (Hready : selected_ready (steps e actions).1).
  { apply (run_invariant selected_ready);
      [eapply reset_ready, Hreset | intros e1 a; apply step_ready]. }
  destruct Hready as (_ & _ & Hsel). exact (Hsel k task Hk Htask).
Qed.

(** X7: after a [reset], a step raises nothing but [IndexError]: the
    assertion of [receive_answer] (a mode is set) never fails and no
    attribute of a missing instance or generator is read, whatever the
    actions of the run, valid or not. *)
Theorem step_raises_only_index_error (e0 e : t G) obs (actions : list Z)
    (action : Z) (x : exn) :
  reset e0 = (e, inr obs) ->
  (step (steps e actions).1 action).2 = Raised x ->
  x = IndexError.
Proof.
  intros Hreset Hraised.
  assert (Hready : selected_ready (steps e actions).1).
  { apply (run_invariant selected_ready);
      [eapply reset_ready, Hreset | intros e1 a; apply step_ready]. }
  exact (proj2 (step_ready _ action Hready) x Hraised).
Qed.

(** ** What a run never changes *)

Lemma task_evolves_refl (task : Task.t) : task_evolves task task.
Proof. unfold task_evolves. repeat split; lia. Qed.

Lemma task_evolves_trans (t1 t2 t3 : Task.t) :
  task_evolves t1 t2 -> task_evolves t2 t3 -> task_evolves t1 t3.
Proof.
  unfold task_evolves.
  intros (Hp & Ha & Hi & Hr & Hq) (Hp' & Ha' & Hi' & Hr' & Hq').
  repeat split; first [congruence | lia].
Qed.

Lemma task_step_evolves (r : Q) (task task' : Task.t) :
  task_step (G := G) r task task' -> task_evolves task task'.
Proof.
  assert (Hanswer : forall t0 a,
             task_evolves t0 (Task.receive_answer t0 a).1).
  { intros t0 a.
    pose proof (receive_answer_frame t0 a : _ /\ _)
      as (Hp & Ha & _ & _ & Hi & Hr & Hq & _).
    unfold task_evolves. repeat split; first [assumption | lia]. }
  assert (Hnew : forall t0 g,
             task_evolves t0 (Task.give_new_instance t0 g).1).
  { intros t0 g.
    pose proof (give_new_instance_fields t0 g : _ /\ _)
      as (Hp & Ha & Hi & Hr & Hq & _).
    unfold task_evolves. repeat split; first [assumption | lia]. }
  intros Hstep; destruct Hstep as [| g _ | a _ | a g _].
  - apply task_evolves_refl.
  - apply Hnew.
  - apply Hanswer.
  - eapply task_evolves_trans; [apply Hanswer | apply Hnew].
Qed.

Lemma steps_tasks_evolve (e : t G) (actions : list Z) :
  Forall2 task_evolves (tasks e) (tasks (steps e actions).1).
Proof.
  induction actions as [|a actions IH] using rev_ind.
  - cbn. induction (tasks e); constructor;
      [apply task_evolves_refl | assumption].
  - rewrite steps_one.
    pose proof (step_tasks (steps e actions).1 a) as Hstep.
    revert IH Hstep.
    generalize (tasks e) (tasks (steps e actions).1)
               (tasks (step (steps e actions).1 a).1)
               (user_reputation (steps e actions).1).
    intros l1. induction l1 as [|x1 l1 IHl]; intros l2 l3 r H12 H23.
    + inversion H12; subst. inversion H23; subst. constructor.
    + inversion H12; subst. inversion H23; subst. constructor.
      * eapply task_evolves_trans;
          [eassumption | eapply task_step_evolves; eassumption].
      * eapply IHl; eassumption.
Qed.

(** X8: over any run, from any state, the task list keeps its length, and
    every slot keeps its task's properties and settings while none of its
    three counters ever decreases. *)
Theorem run_tasks_evolve (e : t G) (actions : list Z) :
  length (tasks (steps e actions).1) = length (tasks e)
  /\ forall (i : nat) (task : Task.t),
       tasks e !! i = Some task ->
       exists task',
         tasks (steps e actions).1 !! i = Some task'
         /\ Task.properties task' = Task.properties task
         /\ Task.anti_cheat_settings task' = Task.anti_cheat_settings task
         /\ Task.instance_counter task <= Task.instance_counter task'
         /\ Task.real_instance_counter task
            <= Task.real_instance_counter task'
         /\ Task.qa_false_counter task <= Task.qa_false_counter task'.
Proof.
  pose proof (steps_tasks_evolve e actions) as Hall. split.
  - symmetry. eapply Forall2_length, Hall.
  - intros i task Hi.
    destruct (Forall2_lookup_l _ _ _ _ _ Hall Hi) as (task' & Hi' & Hev).
    exists task'. split; [exact Hi' | exact Hev].
Qed.

(** X9: no run changes what the constructor fixed nor the slot map of the
    episode: the user properties, the anti-cheat settings, the
    task-givers, [num_tasks], [num_actions] and [task_task_dist_map]
    after any sequence of steps are those before it. *)
Theorem run_keeps_configuration (e : t G) (actions : list Z) :
  user_properties (steps e actions).1 = user_properties e
  /\ anti_cheat_settings (steps e actions).1 = anti_cheat_settings e
  /\ tasks_properties_distributions (steps e actions).1
     = tasks_properties_distributions e
  /\ num_tasks (steps e actions).1 = num_tasks e
  /\ num_actions (steps e actions).1 = num_actions e
  /\ task_task_dist_map (steps e actions).1 = task_task_dist_map e.
Proof.
  induction actions as [|a actions IH] using rev_ind.
  - repeat split.
  - rewrite steps_one.
    pose proof (step_configuration (steps e actions).1 a)
      as (H1 & H2 & H3 & H4 & H5 & H6).
    destruct IH as (I1 & I2 & I3 & I4 & I5 & I6).
    repeat split; congruence.
Qed.

(** ** [reset] *)

Lemma assign_tasks_map (new_tasks : list Task.t) (indices : list nat)
    (k : nat) (tasks0 : list Task.t) (m : gmap nat nat) :
  Forall (fun j => (j < length new_tasks)%nat) indices ->
  length tasks0 = k ->
  exists tasks' m',
    assign_tasks new_tasks indices k tasks0 m = (tasks', m', None)
    /\ (forall i, (i < k)%nat -> tasks' !! i = tasks0 !! i /\ m' !! i = m !! i)
    /\ (forall i, (k + length indices <= i)%nat ->
                  tasks' !! i = None /\ m' !! i = m !! i)
    /\ (forall j d, indices !! j = Some d ->
                    m' !! (k + j)%nat = Some d
                    /\ tasks' !! (k + j)%nat = new_tasks !! d).
Proof.
  intros Hall. revert k tasks0 m.
  induction Hall as [|d0 indices Hd Hall IH]; intros k tasks0 m Hlen;
    cbn [assign_tasks].
  - exists tasks0, m. split; [reflexivity|]. split; [auto|]. split.
    + intros i Hi. split; [| reflexivity].
      apply lookup_ge_None. cbn in Hi. lia.
    + intros j d Hj. discriminate.
  - destruct (lookup_lt_is_Some_2 new_tasks d0 Hd) as [task Htask].
    rewrite Htask.
    destruct (IH (S k) (tasks0 ++ [task]) (<[k:=d0]> m))
      as (tasks' & m' & Heq & Hlow & Hhigh & Hmid).
    { rewrite length_app. cbn. lia. }
    exists tasks', m'. split; [exact Heq|]. split; [| split].
    + intros i Hi. destruct (Hlow i ltac:(lia)) as [Ht Hm]. split.
      * rewrite Ht. apply lookup_app_l. lia.
      * rewrite Hm. apply lookup_insert_ne. lia.
    + intros i Hi. cbn [length] in Hi.
      destruct (Hhigh i ltac:(lia)) as [Ht Hm]. split; [exact Ht|].
      rewrite Hm. apply lookup_insert_ne. lia.
    + intros j d Hj. destruct j as [|j].
      * injection Hj as <-. rewrite Nat.add_0_r.
        destruct (Hlow k ltac:(lia)) as [Ht Hm]. split.
        -- rewrite Hm. apply lookup_insert_eq.
        -- rewrite Ht, Htask. rewrite lookup_app_r by lia.
           rewrite Hlen, Nat.sub_diag. reflexivity.
      * cbn in Hj. replace (k + S j)%nat with (S k + j)%nat by lia.
        apply Hmid. exact Hj.
Qed.

(** X10: [reset] deals the fresh tasks to the slots by a permutation: the
    slot map [task_task_dist_map] is defined exactly on the slots
    [0 .. n-1] (n the number of task-givers), its values in slot order
    are a rearrangement of [0 .. n-1], and slot [i] holds the task created
    for the task-giver the map names, with its counters at 0 and no mode
    yet. *)
Theorem reset_deals_a_permutation (e0 e : t G) obs :
  reset e0 = (e, inr obs) ->
  exists (g : G) (indices : list nat),
    random e0 = Some g
    /\ indices ≡ₚ seq 0 (length (tasks_properties_distributions e0))
    /\ length (tasks e) = length (tasks_properties_distributions e0)
    /\ (forall i, task_task_dist_map e !! i = indices !! i)
    /\ (forall i d,
          task_task_dist_map e !! i = Some d ->
          exists task,
            tasks e !! i = Some task
            /\ (create_tasks (tasks_properties_distributions e0)
                             (anti_cheat_settings e0) g).1 !! d = Some task
            /\ Task.mode task = None
            /\ Task.instance_counter task = 0).
Proof.
  intros Hreset. destruct (reset_returns _ _ _ Hreset) as (g & Hg & ->).
  exists g. unfold episode_start.
  pose proof (create_tasks_spec (tasks_properties_distributions e0)
                (anti_cheat_settings e0) g) as [Hlen Hinit].
  destruct (create_tasks _ _ g) as [new_tasks g1]. cbn [fst] in *.
  pose proof (rng_shuffle_perm
                (seq 0 (length (tasks_properties_distributions e0))) g1)
    as Hperm.
  destruct (rng_shuffle _ g1) as [indices g2]. cbn [fst] in Hperm.
  assert (Hall : Forall (fun j => (j < length new_tasks)%nat) indices).
  { rewrite Hperm. apply Forall_seq. intros j Hj. lia. }
  destruct (assign_tasks_map new_tasks indices 0 [] ∅ Hall eq_refl)
    as (tasks' & m' & -> & _ & Hhigh & Hmid).
  exists indices. simpl_env.
  assert (Hmap : forall i, m' !! i = indices !! i).
  { intros i. destruct (indices !! i) as [d|] eqn:Hi.
    - apply (Hmid i d Hi).
    - apply lookup_ge_None in Hi.
      destruct (Hhigh i ltac:(lia)) as [_ ->]. apply lookup_empty. }
  split; [exact Hg|]. split; [exact Hperm|]. split; [| split].
  - assert (Hlen' : length indices
                    = length (tasks_properties_distributions e0))
      by (rewrite Hperm; apply length_seq).
    rewrite <- Hlen'.
    destruct (Nat.lt_trichotomy (length tasks') (length indices))
      as [Hlt | [Heq | Hgt]]; [| exact Heq |].
    + destruct (lookup_lt_is_Some_2 indices (length tasks') Hlt) as [d Hd].
      destruct (Hmid _ d Hd) as [_ Ht]. cbn in Ht.
      rewrite (proj2 (lookup_ge_None tasks' (length tasks')) ltac:(lia)) in Ht.
      rewrite Forall_forall in Hall.
      assert (Hd' : (d < length new_tasks)%nat)
        by (apply Hall; eapply list_elem_of_lookup_2; eassumption).
      apply lookup_lt_is_Some_2 in Hd'. destruct Hd' as [x Hx]. congruence.
    + destruct (Hhigh (length indices) ltac:(lia)) as [Ht _].
      apply lookup_ge_None in Ht. lia.
  - exact Hmap.
  - intros i d Hi. rewrite Hmap in Hi.
    destruct (Hmid i d Hi) as [_ Ht]. cbn in Ht.
    rewrite Forall_forall in Hall.
    assert (Hd' : (d < length new_tasks)%nat)
      by (apply Hall; eapply list_elem_of_lookup_2; eassumption).
    apply lookup_lt_is_Some_2 in Hd'. destruct Hd' as [task Htask].
    exists task. split; [congruence|]. split; [exact Htask|].
    pose proof (Forall_lookup_1 _ _ _ _ Hinit Htask) as [props ->].
    split; reflexivity.
Qed.

Lemma py_get_nil {A : Type} (i : Z) : py_get (@nil A) i = None.
Proof.
  unfold py_get. cbn [length].
  destruct (_ && _) eqn:Hb; [| reflexivity].
  apply andb_true_iff in Hb as [Hb1 Hb2].
  exfalso. destruct (0 <=? i) eqn:Hi.
  - apply Z.leb_le in Hi. apply Z.ltb_lt in Hb2. cbn in Hb2. lia.
  - apply Z.leb_le in Hb1. apply Z.leb_gt in Hi. cbn in Hb1. lia.
Qed.

(** A step that passes the two terminal tests on an environment without
    tasks fails at [tasks[current_task_idx]]. *)
Lemma step_without_tasks (e : t G) (action : Z) :
  tasks e = [] ->
  action <> ACTION_QUIT ->
  ~ (time_budget (user_properties e) < overall_time_spent e)%Q ->
  step e action = (set_last_action (Some action) e, Raised IndexError).
Proof.
  intros Hnil Ha Hbudget. unfold step.
  replace (action =? ACTION_QUIT) with false by lia.
  simpl_env.
  destruct (Qlt_bool _ _) eqn:Hlt;
    [apply Qlt_bool_true in Hlt; contradiction|].
  rewrite Hnil, py_get_nil. reflexivity.
Qed.

(** X11: [reset] before [seed] fails and destroys the episode: without a
    generator it raises [AttributeError] after it has emptied the task
    list and the slot map, leaving the other attributes as they were, so
    that afterwards every step other than quitting, while the budget is
    not exceeded, raises [IndexError]. *)
Theorem reset_unseeded (e : t G) :
  random e = None ->
  let e' := set_task_task_dist_map ∅ (set_tasks [] e) in
  reset e = (e', inl AttributeError)
  /\ forall action,
       action <> ACTION_QUIT ->
       ~ (time_budget (user_properties e) < overall_time_spent e)%Q ->
       (step e' action).2 = Raised IndexError.
Proof.
  intros Hnone e'. split.
  - unfold reset. simpl_env. rewrite Hnone. reflexivity.
  - intros action Ha Hbudget.
    rewrite (step_without_tasks e' action eq_refl Ha Hbudget).
    reflexivity.
Qed.

(** X12: an environment as constructed, before any [reset], has no tasks
    and reputation -1: quitting returns the 4-entry observation
    [-1, -1, time_budget, 0] with the whole budget as time saved, and
    every other action raises [IndexError] (for a budget that is not
    negative). *)
Theorem step_before_reset (up : UserProperties)
    (dists : list TaskPropertiesDistribution) (acs : AntiCheatSettings)
    (action : Z) :
  let e := init (G := G) up dists acs in
  (step e ACTION_QUIT).2
  = Returned [inject_Z (-1); -1; time_budget up; 0]%Q
             ((time_budget up - 0) * time_sensitivity up)%Q true
             [("end_reason", "user_quit")]%string
  /\ (action <> ACTION_QUIT -> (0 <= time_budget up)%Q ->
      (step e action).2 = Raised IndexError).
Proof.
  intros e. split; [reflexivity|].
  intros Ha Hbudget.
  assert (Hnot : ~ (time_budget (user_properties e)
                    < overall_time_spent e)%Q).
  { subst e. simpl_env. cbn [init user_properties overall_time_spent].
    intros Hlt. apply Qlt_not_le in Hlt. contradiction. }
  rewrite (step_without_tasks e action eq_refl Ha Hnot). reflexivity.
Qed.

(** ** Answering the selected task *)

(** The answer branch of [step] once the answer is chosen and received:
    the time is charged, the reputation change is applied and clamped,
    and the task is deselected if it has become inactive and poses a new
    question otherwise. *)
Lemma step_answer_received (e : t G) (action : Z) (k : nat)
    (current_task task1 : Task.t) (g g1 : G)
    (time_spent reward delta : Q) (answer : Z) :
  action = ACTION_ANS_RND \/ action = ACTION_ANS_INTENT ->
  ~ (time_budget (user_properties e) < overall_time_spent e)%Q ->
  py_get (tasks e) (current_task_idx e) = Some (k, current_task) ->
  current_task_idx e <> -1 ->
  Task.is_active current_task (user_reputation e) = true ->
  random e = Some g ->
  choose_answer (set_last_action (Some action) e) action current_task g
  = (inr (time_spent, answer, reward), g1) ->
  Task.receive_answer current_task answer = (task1, inr delta) ->
  let r' := py_max 0 (py_min 1 (user_reputation e + delta)) in
  let e' := (step e action).1 in
  (exists obs, (step e action).2 = Returned obs reward false [])
  /\ overall_time_spent e' = (overall_time_spent e + time_spent)%Q
  /\ user_reputation e' = r'
  /\ current_task_idx e'
     = (if Task.is_active task1 r' then current_task_idx e else -1)
  /\ tasks e' !! k
     = Some (if Task.is_active task1 r'
             then (Task.give_new_instance task1 g1).1 else task1).
Proof.
  intros Ha Hbudget Hget Hsel Hact Hg Hchoose Hrecv r' e'.
  subst e' r'. unfold step.
  replace (action =? ACTION_QUIT) with false
    by (unfold ACTION_QUIT, ACTION_ANS_RND, ACTION_ANS_INTENT in *; lia).
  simpl_env.
  destruct (Qlt_bool _ _) eqn:Hlt;
    [apply Qlt_bool_true in Hlt; contradiction|].
  rewrite Hget.
  replace ((action =? ACTION_ANS_RND) || (action =? ACTION_ANS_INTENT))
    with true
    by (symmetry; apply orb_true_iff; destruct Ha; [left | right]; lia).
  unfold step_answer. simpl_env.
  replace (current_task_idx e =? -1) with false by lia.
  rewrite Hact. cbn [negb orb]. rewrite Hg, Hchoose. simpl_env.
  rewrite Hrecv. simpl_env.
  apply py_get_Some in Hget as (Hk & _ & _).
  assert (Hklt : (k < length (tasks e))%nat)
    by (eapply lookup_lt_Some; eassumption).
  destruct (Task.is_active task1 _) eqn:Hact1; cbn [negb].
  - destruct (Task.give_new_instance task1 g1) as [task2 g2]. simpl_env.
    split; [eexists; reflexivity|]. repeat split.
    rewrite list_lookup_insert_eq
      by (rewrite length_insert; exact Hklt).
    reflexivity.
  - simpl_env. split; [eexists; reflexivity|]. repeat split.
    rewrite list_lookup_insert_eq by exact Hklt. reflexivity.
Qed.

(** X13: a negligent answer to the selected, active task submits a label
    drawn uniformly from the classes, costs [random_answer_time] and earns
    [payout_sensitivity * payout] whether the label is right or not; the
    reputation becomes the clamped sum of the old one and the change
    [receive_answer] returns; the task is deselected if that made it
    inactive and otherwise poses a new question. *)
Theorem negligent_answer_spec (e : t G) (k : nat) (current_task : Task.t)
    (g : G) :
  ~ (time_budget (user_properties e) < overall_time_spent e)%Q ->
  py_get (tasks e) (current_task_idx e) = Some (k, current_task) ->
  current_task_idx e <> -1 ->
  Task.is_active current_task (user_reputation e) = true ->
  random e = Some g ->
  is_Some (Task.mode current_task) ->
  is_Some (Task.current_instance current_task) ->
  let props := Task.properties current_task in
  let answer := (rng_integers 0 (num_classes props) g).1 in
  let g1 := (rng_integers 0 (num_classes props) g).2 in
  let task1 := (Task.receive_answer current_task answer).1 in
  exists delta obs,
    (Task.receive_answer current_task answer).2 = inr delta
    /\ (step e ACTION_ANS_RND).2
       = Returned obs (payout_sensitivity (user_properties e) * payout props)
                  false []
    /\ overall_time_spent (step e ACTION_ANS_RND).1
       = (overall_time_spent e + random_answer_time (user_properties e))%Q
    /\ user_reputation (step e ACTION_ANS_RND).1
       = py_max 0 (py_min 1 (user_reputation e + delta))
    /\ current_task_idx (step e ACTION_ANS_RND).1
       = (if Task.is_active task1 (user_reputation (step e ACTION_ANS_RND).1)
          then current_task_idx e else -1)
    /\ tasks (step e ACTION_ANS_RND).1 !! k
       = Some (if Task.is_active task1
                    (user_reputation (step e ACTION_ANS_RND).1)
               then (Task.give_new_instance task1 g1).1 else task1).
Proof.
  intros Hbudget Hget Hsel Hact Hg Hmode Hinst props answer g1 task1.
  destruct (receive_answer_returns current_task answer Hmode Hinst)
    as (task1' & delta & Hrecv).
  assert (task1 = task1') by (subst task1; rewrite Hrecv; reflexivity).
  subst task1'.
  assert (Hchoose :
            choose_answer (set_last_action (Some ACTION_ANS_RND) e)
                          ACTION_ANS_RND current_task g
            = (inr (random_answer_time (user_properties e), answer,
                    (payout_sensitivity (user_properties e)
                     * payout props)%Q), g1)).
  { unfold choose_answer. cbn [Z.eqb ACTION_ANS_RND]. simpl_env.
    subst answer g1 props.
    destruct (rng_integers 0 _ g). reflexivity. }
  destruct (step_answer_received e ACTION_ANS_RND k current_task task1 g g1
              _ _ delta answer (or_introl eq_refl) Hbudget Hget Hsel Hact Hg
              Hchoose Hrecv) as ([obs Hobs] & Htime & Hrep & Hidx & Htask).
  exists delta, obs. rewrite Hrecv. rewrite Hrep at 2 3.
  repeat split; assumption.
Qed.

(** X14: a diligent answer to the selected, active task submits the true
    label when the [random()] draw is below the task's expertise and a
    uniformly drawn label otherwise, costs
    [intentional_answer_time * effort] and earns
    [payout_sensitivity * payout
     + interestingness_sensitivity * interestingness]; reputation and
    selection are updated as for a negligent answer. *)
Theorem diligent_answer_spec (e : t G) (k : nat) (current_task : Task.t)
    (g : G) (inst : Instance) :
  ~ (time_budget (user_properties e) < overall_time_spent e)%Q ->
  py_get (tasks e) (current_task_idx e) = Some (k, current_task) ->
  current_task_idx e <> -1 ->
  Task.is_active current_task (user_reputation e) = true ->
  random e = Some g ->
  is_Some (Task.mode current_task) ->
  Task.current_instance current_task = Some inst ->
  let props := Task.properties current_task in
  let up := user_properties e in
  let u := (rng_random g).1 in
  let answer :=
    if Qlt_bool u (expertise props) then true_label inst
    else (rng_integers 0 (num_classes props) (rng_random g).2).1 in
  let task1 := (Task.receive_answer current_task answer).1 in
  exists delta obs,
    (Task.receive_answer current_task answer).2 = inr delta
    /\ (step e ACTION_ANS_INTENT).2
       = Returned obs
           (payout_sensitivity up * payout props
            + interestingness_sensitivity up * interestingness props)
           false []
    /\ overall_time_spent (step e ACTION_ANS_INTENT).1
       = (overall_time_spent e + intentional_answer_time up * effort props)%Q
    /\ user_reputation (step e ACTION_ANS_INTENT).1
       = py_max 0 (py_min 1 (user_reputation e + delta))
    /\ current_task_idx (step e ACTION_ANS_INTENT).1
       = (if Task.is_active task1
               (user_reputation (step e ACTION_ANS_INTENT).1)
          then current_task_idx e else -1).
Proof.
  intros Hbudget Hget Hsel Hact Hg Hmode Hinst props up u answer task1.
  destruct (receive_answer_returns current_task answer Hmode
              (ex_intro _ inst Hinst)) as (task1' & delta & Hrecv).
  assert (task1 = task1') by (subst task1; rewrite Hrecv; reflexivity).
  subst task1'.
  assert (Hchoose :
            exists g1,
              choose_answer (set_last_action (Some ACTION_ANS_INTENT) e)
                            ACTION_ANS_INTENT current_task g
              = (inr ((intentional_answer_time up * effort props)%Q, answer,
                      (payout_sensitivity up * payout props
                       + interestingness_sensitivity up
                         * interestingness props)%Q), g1)).
  { unfold choose_answer. cbn [Z.eqb ACTION_ANS_INTENT ACTION_ANS_RND].
    simpl_env. subst answer u props up. rewrite Hinst.
    destruct (rng_random g) as [u0 g0]. cbn [fst snd].
    destruct (Qlt_bool u0 _); [eexists; reflexivity|].
    destruct (rng_integers 0 _ g0). eexists; reflexivity. }
  destruct Hchoose as [g1 Hchoose].
  destruct (step_answer_received e ACTION_ANS_INTENT k current_task task1
              g g1 _ _ delta answer (or_intror eq_refl) Hbudget Hget Hsel
              Hact Hg Hchoose Hrecv)
    as ([obs Hobs] & Htime & Hrep & Hidx & Htask).
  exists delta, obs. rewrite Hrecv. rewrite Hrep at 2.
  repeat split; assumption.
Qed.

(** ** Reputation and time *)

Lemma receive_answer_label_delta (task task' : Task.t) (answer : Z)
    (delta : Q) :
  Task.mode task <> Some QUALITY_CONTROL_MODE ->
  Task.receive_answer task answer = (task', inr delta) ->
  delta = 0%Q.
Proof.
  unfold Task.receive_answer. intros Hmode.
  destruct (Task.mode task) as [[|]|]; [contradiction | |];
    split_cases; intros [= _ <-] || intros [=]; reflexivity.
Qed.

Lemma clamp_unit (x : Q) :
  (0 <= x <= 1)%Q -> (py_max 0 (py_min 1 (x + 0)) == x)%Q.
Proof.
  intros [H0 H1]. unfold py_max, py_min.
  destruct (Qlt_bool (x + 0) 1) eqn:E1.
  - destruct (Qlt_bool 0 (x + 0)) eqn:E2; [lra|].
    apply Qlt_bool_false in E2. lra.
  - apply Qlt_bool_false in E1. destruct (Qlt_bool 0 1) eqn:E2; [lra|].
    apply Qlt_bool_false in E2. lra.
Qed.

(** X15: only gold questions move the reputation: from a reputation in
    [0, 1], a step whose action is not an answer, or in which the task at
    [current_task_idx] is not in quality-control mode, leaves the
    reputation at its value. *)
Theorem reputation_moves_on_gold_only (e : t G) (action : Z) :
  (0 <= user_reputation e <= 1)%Q ->
  (action <> ACTION_ANS_RND /\ action <> ACTION_ANS_INTENT)
  \/ (forall k task,
        py_get (tasks e) (current_task_idx e) = Some (k, task) ->
        Task.mode task <> Some QUALITY_CONTROL_MODE) ->
  (user_reputation (step e action).1 == user_reputation e)%Q.
Proof.
  intros Hrep Hcase. unfold step, step_answer, step_switch.
  split_cases; simpl_env; try reflexivity;
    (destruct Hcase as [[Hn1 Hn2] | Hlabel];
     [ match goal with
       | Hb : (action =? ACTION_ANS_RND) || (action =? ACTION_ANS_INTENT)
              = true |- _ =>
           apply orb_true_iff in Hb as [Hb | Hb];
             apply Z.eqb_eq in Hb; contradiction
       end
     | match goal with
       | Hget : py_get (tasks _) _ = Some (_, ?current),
         Hr : Task.receive_answer ?current _ = (_, inr ?delta) |- _ =>
           rewrite (receive_answer_label_delta _ _ _ _
                      (Hlabel _ _ Hget) Hr);
           apply clamp_unit; exact Hrep
       end ]).
Qed.

Lemma choose_answer_time (e : t G) (action : Z) (task : Task.t) (g g' : G)
    (time_spent reward : Q) (answer : Z) :
  choose_answer e action task g = (inr (time_spent, answer, reward), g') ->
  time_spent = random_answer_time (user_properties e)
  \/ time_spent
     = (intentional_answer_time (user_properties e)
        * effort (Task.properties task))%Q.
Proof.
  unfold choose_answer. split_cases; intros [= <- _ _ _]; auto.
Qed.

Lemma step_time_monotone (e : t G) (action : Z) :
  costs_nonneg e ->
  (overall_time_spent e <= overall_time_spent (step e action).1)%Q.
Proof.
  intros (Hrat & Hiat & Hstt & Heff).
  unfold step, step_answer, step_switch.
  split_cases; simpl_env; try apply Qle_refl; try lra;
  match goal with
       | Hget : py_get (tasks e) _ = Some (_, ?current),
         Hc : choose_answer _ _ ?current _ = (inr (?ts, _, _), _) |- _ =>
           apply py_get_Some in Hget as [Hget _];
           pose proof (Forall_lookup_1 _ _ _ _ Heff Hget) as Heffort;
           cbn beta in Heffort;
           apply choose_answer_time in Hc as [-> | ->]; simpl_env;
           [lra | nra]
       end.
Qed.

Lemma step_costs_nonneg (e : t G) (action : Z) :
  costs_nonneg e -> costs_nonneg (step e action).1.
Proof.
  intros (Hrat & Hiat & Hstt & Heff).
  pose proof (step_configuration e action) as (Hup & _).
  unfold costs_nonneg. rewrite Hup.
  split; [exact Hrat|]. split; [exact Hiat|]. split; [exact Hstt|].
  pose proof (step_tasks e action) as Hsteps.
  revert Heff. induction Hsteps as [|task task' l l' Hstep _ IH];
    intros Heff; [constructor|].
  inversion Heff; subst. constructor; [| apply IH; assumption].
  destruct (task_step_frame _ _ _ Hstep) as [-> _]. assumption.
Qed.

(** X16: the time spent never decreases: when the worker's answer and
    switch times and the efforts of the tasks are not negative,
    [overall_time_spent] after any run is at least what it was before. *)
Theorem time_never_decreases (e : t G) (actions : list Z) :
  costs_nonneg e ->
  (overall_time_spent e <= overall_time_spent (steps e actions).1)%Q.
Proof.
  intros Hcosts.
  assert (Hinv : costs_nonneg (steps e actions).1
                 /\ (overall_time_spent e
                     <= overall_time_spent (steps e actions).1)%Q).
  { induction actions as [|a actions IH] using rev_ind.
    - split; [exact Hcosts | apply Qle_refl].
    - rewrite steps_one. destruct IH as [Hc Hle]. split.
      + apply step_costs_nonneg, Hc.
      + eapply Qle_trans; [exact Hle | apply step_time_monotone, Hc]. }
  exact (proj2 Hinv).
Qed.

(** ** Names of actions and rendering *)

(** X17: [action_to_str] names every action index from 0 on and returns
    nothing exactly for the negative ones; indices 0, 1, 2 get the three
    fixed names and an index [a >= 3] the name of the switch to task
    [a - 3]; different indices from 0 on get different names. *)
Theorem action_to_str_spec (a b : Z) :
  (action_to_str a = None <-> a < 0)
  /\ (3 <= a ->
      action_to_str a = Some ("SWITCH TO TASK " +:+ pretty (a - 3)))
  /\ (0 <= a -> action_to_str a = action_to_str b -> a = b).
Proof.
  assert (Hsw : forall x, 3 <= x ->
            action_to_str x = Some ("SWITCH TO TASK " +:+ pretty (x - 3))).
  { intros x Hx. unfold action_to_str, ACTION_QUIT, ACTION_ANS_RND,
      ACTION_ANS_INTENT, SWITCH_TASK0.
    replace (x =? 0) with false by lia. replace (x =? 1) with false by lia.
    replace (x =? 2) with false by lia. replace (3 <=? x) with true by lia.
    reflexivity. }
  assert (Hneg : forall x, x < 0 -> action_to_str x = None).
  { intros x Hx. unfold action_to_str, ACTION_QUIT, ACTION_ANS_RND,
      ACTION_ANS_INTENT, SWITCH_TASK0.
    replace (x =? 0) with false by lia. replace (x =? 1) with false by lia.
    replace (x =? 2) with false by lia. replace (3 <=? x) with false by lia.
    reflexivity. }
  assert (Hcases : forall x,
            x < 0 \/ x = 0 \/ x = 1 \/ x = 2 \/ 3 <= x) by (intros; lia).
  split; [| split].
  - split; [| apply Hneg].
    destruct (Hcases a) as [Ha | [-> | [-> | [-> | Ha]]]];
      [auto | discriminate.. |].
    rewrite (Hsw a Ha). discriminate.
  - apply Hsw.
  - intros Ha Heq.
    destruct (Hcases a) as [Ha' | [-> | [-> | [-> | Ha']]]]; [lia | | | |];
      destruct (Hcases b) as [Hb | [-> | [-> | [-> | Hb]]]];
      try reflexivity;
      try (rewrite (Hneg b Hb) in Heq);
      try (rewrite (Hsw b Hb) in Heq);
      try (rewrite (Hsw a Ha') in Heq);
      cbn [String.append] in Heq;
      try discriminate Heq.
    injection Heq as Heq. cbn [String.append] in Heq.
    apply pretty_Z_inj in Heq. lia.
Qed.

Lemma obs_get_in_range (obs : list Q) (i : Z) :
  0 <= i < Z.of_nat (length obs) -> exists x, obs_get obs i = inr x.
Proof.
  intros Hi. unfold obs_get.
  destruct (py_get_in_range obs i ltac:(lia)) as (k & x & ->).
  exists x. reflexivity.
Qed.

Lemma obs_get_out_of_range (obs : list Q) (i : Z) :
  Z.of_nat (length obs) <= i -> obs_get obs i = inl IndexError.
Proof.
  intros Hi. unfold obs_get. rewrite py_get_out_of_range by exact Hi.
  reflexivity.
Qed.

Lemma task_to_string_in_range (fmt : Q -> string) (obs : list Q) (i : Z) :
  0 <= i -> i * 5 + 4 < Z.of_nat (length obs) ->
  exists lines, task_to_string fmt obs i = inr lines.
Proof.
  intros Hi Hlen. unfold task_to_string.
  destruct (obs_get_in_range obs (i * 5) ltac:(lia)) as [x0 ->].
  destruct (obs_get_in_range obs (i * 5 + 1) ltac:(lia)) as [x1 ->].
  destruct (obs_get_in_range obs (i * 5 + 2) ltac:(lia)) as [x2 ->].
  destruct (obs_get_in_range obs (i * 5 + 3) ltac:(lia)) as [x3 ->].
  destruct (obs_get_in_range obs (i * 5 + 4) ltac:(lia)) as [x4 ->].
  eexists. reflexivity.
Qed.

Lemma tasks_to_string_in_range (fmt : Q -> string) (obs : list Q)
    (a n : nat) (output : string) :
  (5 * (a + n) <= length obs)%nat ->
  exists text, tasks_to_string fmt obs (seq a n) output = inr text.
Proof.
  revert a output. induction n as [|n IH]; intros a output Hlen;
    cbn [seq tasks_to_string].
  - eexists. reflexivity.
  - destruct (task_to_string_in_range fmt obs (Z.of_nat a)) as [lines ->];
      [lia | lia |].
    apply IH. lia.
Qed.

(** X18: [render] in text mode works only when there is a task: on an
    environment whose task list has [num_tasks >= 1] entries it prints a
    text, but with no task-giver at all [observation_to_string] reads
    [obs[5]] of the 4-entry observation and raises [IndexError]; in any
    other mode nothing is printed. *)
Theorem render_needs_a_task (fmt : Q -> string) (e : t G) :
  Z.of_nat (length (tasks e)) = num_tasks e ->
  (num_tasks e = 0 -> render fmt e "text" = inl IndexError)
  /\ (1 <= num_tasks e -> exists text, render fmt e "text" = inr (Some text))
  /\ (forall mode, mode <> "text"%string -> render fmt e mode = inr None).
Proof.
  intros Hlen.
  assert (Hobs : Z.of_nat (length (create_observation e))
                 = 5 * num_tasks e + 4).
  { unfold create_observation.
    rewrite length_app, (flat_map_length_fixed _ 5)
      by apply task_observation_length.
    cbn [length]. lia. }
  split; [| split].
  - intros Hzero. unfold render, observation_to_string.
    cbn [String.eqb Ascii.eqb Bool.eqb]. rewrite Hzero.
    cbn [Z.to_nat seq tasks_to_string Z.ltb Z.compare].
    rewrite (obs_get_out_of_range _ ((0 + 1) * 5)) by lia. reflexivity.
  - intros Hpos. unfold render, observation_to_string.
    cbn [String.eqb Ascii.eqb Bool.eqb].
    destruct (tasks_to_string_in_range fmt (create_observation e) 0
                (Z.to_nat (num_tasks e)) ("Observation:" +:+ newline))
      as [text ->]; [lia|].
    replace (0 <? num_tasks e) with true by lia.
    destruct (obs_get_in_range (create_observation e)
                ((num_tasks e - 1 + 1) * 5) ltac:(lia)) as [x0 ->].
    destruct (obs_get_in_range (create_observation e)
                ((num_tasks e - 1 + 1) * 5 + 1) ltac:(lia)) as [x1 ->].
    destruct (obs_get_in_range (create_observation e)
                ((num_tasks e - 1 + 1) * 5 + 3) ltac:(lia)) as [x3 ->].
    destruct (obs_get_in_range (create_observation e)
                ((num_tasks e - 1 + 1) * 5 + 2) ltac:(lia)) as [x2 ->].
    eexists. reflexivity.
  - intros mode Hmode. unfold render.
    destruct (String.eqb mode "text") eqn:E; [| reflexivity].
    apply String.eqb_eq in E. contradiction.
Qed.

(** ** Observations and valid runs *)

(** X19: along every run from a [reset], the rounds field of a slot tells
    whether its task is active: it is -1 exactly when the task is
    inactive for the current reputation (an active task shows its
    instance counter, which is never negative), and the three property
    fields are hidden (-1 shown for them) exactly as long as the task has
    not been answered. *)
Theorem rounds_field_tells_activity (e0 e : t G) obs (actions : list Z)
    (i : nat) (task : Task.t) :
  reset e0 = (e, inr obs) ->
  tasks (steps e actions).1 !! i = Some task ->
  (create_observation (steps e actions).1 !! (5 * i + 1)%nat
   = Some (-1)%Q
   <-> Task.is_active task (user_reputation (steps e actions).1) = false)
  /\ (Task.instance_counter task = 0 ->
      create_observation (steps e actions).1 !! (5 * i + 2)%nat
      = Some (-1)%Q)
  /\ (Task.instance_counter task <> 0 ->
      create_observation (steps e actions).1 !! (5 * i + 2)%nat
      = Some (expertise (Task.properties task))).
Proof.
  intros Hreset Hi.
  assert (Hall : Forall counters_ok (tasks (steps e actions).1)).
  { apply (run_invariant (fun e => Forall counters_ok (tasks e)));
      [| apply step_counters_ok].
    eapply Forall_impl; [eapply reset_fresh_tasks, Hreset|].
    intros task0 [props ->]. unfold counters_ok. cbn. lia. }
  pose proof (Forall_lookup_1 _ _ _ _ Hall Hi) as (Hq & Hr & Hsum).
  rewrite !(create_observation_slot _ i _ task Hi) by lia.
  unfold task_observation.
  split; [| split].
  - destruct (Task.is_active task _); cbn.
    + split; [| discriminate].
      intros [= Hc]. lia.
    + split; reflexivity.
  - intros Hzero. rewrite Hzero.
    destruct (Task.is_active task _); reflexivity.
  - intros Hne. replace (0 <? Task.instance_counter task) with true by lia.
    destruct (Task.is_active task _); reflexivity.
Qed.

Lemma steps_outcomes_cons (e : t G) (a : Z) (actions : list Z) :
  (steps e (a :: actions)).2
  = (step e a).2 :: (steps (step e a).1 actions).2.
Proof.
  cbn [steps]. destruct (step e a) as [e1 o]. cbn [fst snd].
  destruct (steps e1 actions) as [e2 os]. reflexivity.
Qed.

Lemma step_in_action_space (e : t G) (action : Z) :
  well_formed e ->
  1 <= num_tasks e ->
  0 <= action <= num_tasks e + 2 ->
  (exists obs reward done info,
     (step e action).2 = Returned obs reward done info)
  /\ well_formed (step e action).1.
Proof.
  intros Hwf Hn Ha.
  pose proof Hwf as (Hlen & Hidx & _).
  unfold step.
  destruct (action =? ACTION_QUIT) eqn:Hq.
  { split; [eexists _, _, _, _; reflexivity | exact Hwf]. }
  destruct (Qlt_bool _ _).
  { split; [eexists _, _, _, _; reflexivity | exact Hwf]. }
  destruct (py_get_in_range (tasks e) (current_task_idx e))
    as (k & current_task & Hget); [lia|].
  simpl_env. rewrite Hget.
  destruct (_ || _) eqn:Hanswer.
  - apply step_answer_total; [exact Hwf | exact Hget].
  - apply orb_false_iff in Hanswer as [H1 H2].
    unfold ACTION_QUIT, ACTION_ANS_RND, ACTION_ANS_INTENT in *.
    replace (SWITCH_TASK0 <=? action) with true
      by (unfold SWITCH_TASK0; lia).
    apply step_switch_total; [exact Hwf |].
    unfold SWITCH_TASK0. simpl_env. lia.
Qed.

(** X20: a run of actions from the action space never fails: after a
    [reset] of an environment with at least one task-giver (and
    [num_tasks] the number of task-givers, as [__init__] sets it), every
    step of a run whose actions all lie in [0 .. num_tasks + 2] returns a
    4-tuple. *)
Theorem valid_runs_return (e0 e : t G) obs (actions : list Z) :
  num_tasks e0 = Z.of_nat (length (tasks_properties_distributions e0)) ->
  1 <= num_tasks e0 ->
  reset e0 = (e, inr obs) ->
  Forall (fun a => 0 <= a <= num_tasks e0 + 2) actions ->
  Forall (fun o => exists obs reward done info,
                     o = Returned obs reward done info)
         (steps e actions).2.
Proof.
  intros Hnum Hpos Hreset Hvalid.
  pose proof (reset_well_formed e0 e obs Hnum Hreset) as Hwf.
  assert (Hn : num_tasks e = num_tasks e0).
  { destruct (reset_returns _ _ _ Hreset) as (g & _ & ->).
    apply (episode_start_spec e0 g). }
  rewrite <- Hn in Hvalid, Hpos. clear Hn Hnum Hreset.
  revert e Hwf Hpos Hvalid.
  induction actions as [|a actions IH]; intros e Hwf Hpos Hvalid.
  - constructor.
  - inversion Hvalid as [|a' l Ha Hrest]; subst.
    rewrite steps_outcomes_cons.
    destruct (step_in_action_space e a Hwf Hpos Ha) as [Hret Hwf'].
    pose proof (step_configuration e a) as (_ & _ & _ & Hnum' & _).
    constructor; [exact Hret|].
    apply IH; [exact Hwf' | lia |].
    rewrite Hnum'. exact Hrest.
Qed.

(** ** The declared observation space *)

Lemma step_selection (e : t G) (action : Z) :
  current_task_idx (step e action).1 = current_task_idx e
  \/ current_task_idx (step e action).1 = -1
  \/ (SWITCH_TASK0 <= action
      /\ current_task_idx (step e action).1 = action - SWITCH_TASK0).
Proof.
  unfold step, step_answer, step_switch.
  split_cases; simpl_env; auto;
    right; right; (split; [lia | reflexivity]).
Qed.

Lemma task_observation_in_space (r : Q) (task : Task.t) :
  properties_in_range task -> counters_ok task ->
  Forall2 within_bounds (task_observation r task)
          (zip [0; -1; -1; -1; -1]%Q [Some 1%Q; None; None; None; None]).
Proof.
  intros Hprops (Hq & Hr & Hsum).
  assert (Hc : (-1 <= inject_Z (Task.instance_counter task))%Q).
  { clear Hprops. change (-1)%Q with (inject_Z (-1)).
    rewrite <- Zle_Qle. lia. }
  destruct Hprops as ([Hp0 Hp1] & Hx & Hf & Hi).
  unfold task_observation, within_bounds.
  destruct (Task.is_active task r), (0 <? Task.instance_counter task);
    cbn [app zip zip_with fst snd];
    repeat constructor; cbn [fst snd]; try lra; try assumption.
Qed.

Lemma length_join_replicate {A : Type} (n : nat) (l : list A) :
  length (mjoin (replicate n l)) = (n * length l)%nat.
Proof.
  induction n as [|n IH]; [reflexivity|].
  change (mjoin (replicate (S n) l)) with (l ++ mjoin (replicate n l)).
  rewrite length_app, IH. lia.
Qed.

Lemma observable_in_space (e : t G) :
  observable e -> in_observation_space (num_tasks e) (create_observation e).
Proof.
  intros (Hlen & Hidx & Hrep & Hbudget & Htime & _ & Htasks).
  unfold in_observation_space, create_observation, min_values, max_values.
  rewrite <- Hlen, Nat2Z.id.
  assert (Hslots :
            forall l, Forall (fun task => properties_in_range task
                                          /\ counters_ok task) l ->
              Forall2 within_bounds
                (flat_map (task_observation (user_reputation e)) l)
                (zip (mjoin (replicate (length l) [0; -1; -1; -1; -1]%Q))
                     (mjoin (replicate (length l)
                               [Some 1%Q; None; None; None; None])))).
  { intros l Hl. induction Hl as [|task l [Hp Hc] _ IH].
    - constructor.
    - cbn [flat_map length replicate mjoin list_join].
      pose proof (task_observation_in_space (user_reputation e) task Hp Hc)
        as Hslot.
      unfold task_observation in *.
      destruct (Task.is_active task _), (0 <? Task.instance_counter task);
        cbn [app zip zip_with] in *;
        repeat (match goal with
                | Hs : Forall2 _ (_ :: _) (_ :: _) |- _ =>
                    inversion Hs; subst; clear Hs
                end);
        repeat (constructor; [assumption|]); exact IH. }
  specialize (Hslots (tasks e) Htasks).
  rewrite zip_with_app.
  - apply Forall2_app; [exact Hslots|].
    cbn [zip zip_with]. unfold within_bounds.
    repeat constructor; cbn [fst snd]; try lra.
    + change (-1)%Q with (inject_Z (-1)).
      rewrite <- Zle_Qle. apply Hidx.
    + rewrite <- Zle_Qle, Hlen. apply Hidx.
  - rewrite !length_join_replicate. reflexivity.
Qed.

Lemma step_observable (e : t G) (action : Z) :
  action <= num_tasks e + 2 -> observable e -> observable (step e action).1.
Proof.
  intros Ha (Hlen & Hidx & Hrep & Hbudget & Htime & Hcosts & Htasks).
  pose proof (step_configuration e action) as (Hup & _ & _ & Hnum & _).
  pose proof (step_tasks e action) as Hsteps.
  unfold observable. rewrite Hup, Hnum.
  split; [| split; [| split; [| split; [| split; [| split]]]]].
  - rewrite <- (Forall2_length _ _ _ Hsteps). exact Hlen.
  - destruct (step_selection e action) as [-> | [-> | [Hs ->]]];
      unfold SWITCH_TASK0 in *; lia.
  - apply step_reputation_range, Hrep.
  - exact Hbudget.
  - eapply Qle_trans; [exact Htime | apply step_time_monotone, Hcosts].
  - apply step_costs_nonneg, Hcosts.
  - clear - Hsteps Htasks. revert Htasks.
    induction Hsteps as [|task task' l l' Hstep _ IH];
      intros Htasks; [constructor|].
    inversion Htasks as [|? ? [Hp Hc] Hrest]; subst.
    constructor; [| apply IH; assumption]. split.
    + unfold properties_in_range in *.
      destruct (task_step_frame _ _ _ Hstep) as [-> _]. exact Hp.
    + eapply task_step_counters_ok; eassumption.
Qed.

(** X21: observations stay in the observation space that [__init__]
    declares: after a [reset], when [start_reputation] is in [0, 1], the
    budget and the action times are not negative and the properties drawn
    for the tasks are in the declared ranges (payout in [0, 1], the others
    at least -1, effort not negative), the observation of every state of
    a run of actions up to [num_tasks + 2] has the declared length and
    every entry lies between its declared bounds. *)
Theorem observations_in_declared_space (e0 e : t G) obs (actions : list Z) :
  num_tasks e0 = Z.of_nat (length (tasks_properties_distributions e0)) ->
  reset e0 = (e, inr obs) ->
  (0 <= start_reputation (user_properties e0) <= 1)%Q ->
  (0 <= time_budget (user_properties e0))%Q ->
  (0 <= random_answer_time (user_properties e0))%Q ->
  (0 <= intentional_answer_time (user_properties e0))%Q ->
  (0 <= switch_task_time (user_properties e0))%Q ->
  Forall properties_in_range (tasks e) ->
  Forall (fun a => a <= num_tasks e0 + 2) actions ->
  in_observation_space (num_tasks e0)
    (create_observation (steps e actions).1).
Proof.
  intros Hnum Hreset Hstart Hbudget Hrat Hiat Hstt Hprops Hvalid.
  destruct (reset_returns _ _ _ Hreset) as (g & _ & Heq).
  pose proof (episode_start_spec e0 g)
    as (Hlen & Hinit & Hup & _ & Hn & _ & Hrep & Hidx & Htime & _).
  cbn zeta in *. rewrite <- Heq in *. clear Heq g.
  assert (Hobs : observable e).
  { unfold observable, costs_nonneg. rewrite Hup, Hrep, Hidx, Htime, Hn.
    split; [lia|]. split; [lia|]. split; [exact Hstart|].
    split; [exact Hbudget|]. split; [apply Qle_refl|].
    split.
    - split; [exact Hrat|]. split; [exact Hiat|]. split; [exact Hstt|].
      eapply Forall_impl; [exact Hprops|]. intros task Hp. apply Hp.
    - rewrite Forall_forall in Hprops, Hinit. apply Forall_forall.
      intros task Hin. split; [apply Hprops, Hin|].
      destruct (Hinit task Hin) as [props ->].
      unfold counters_ok. cbn. lia. }
  rewrite <- Hn in Hvalid |- *. clear - Hobs Hvalid.
  assert (Hfinal : observable (steps e actions).1
                   /\ num_tasks (steps e actions).1 = num_tasks e).
  { revert Hvalid.
    induction actions as [|a actions IH] using rev_ind; intros Hvalid.
    - split; [exact Hobs | reflexivity].
    - apply Forall_app in Hvalid as [Hvalid Ha].
      apply Forall_inv in Ha.
      rewrite steps_one. destruct (IH Hvalid) as [Ho Hn].
      pose proof (step_configuration (steps e actions).1 a)
        as (_ & _ & _ & Hnum & _).
      split; [| congruence].
      apply step_observable; [rewrite Hn; exact Ha | exact Ho]. }
  destruct Hfinal as [Ho Hn]. rewrite <- Hn. apply observable_in_space, Ho.
Qed.

End Further.

(** * The properties on concrete runs

    All runs below use the environment with one task-giver, seeded with
    42: after [reset] no task is selected; [step(3)] selects task 0, which
    poses a real question; the first answer completes its target of one
    instance and deactivates it. *)

(** The reputation stays in [0, 1] over a run that starts at 1. *)
Lemma reputation_in_unit_interval_witness :
  (0 <= UserModelEnv.user_reputation
          (UserModelEnv.steps (demo_env 1) [3; 1; 2]%Z).1 <= 1)%Q.
Proof.
  apply (reputation_in_unit_interval
           (UserModelEnv.seed (demo_new 1) 42) (demo_env 1)
           (UserModelEnv.create_observation (demo_env 1)) [3; 1; 2]).
  - vm_compute. reflexivity.
  - vm_compute. split; discriminate.
Defined.

(** C1 fails as stated: with [start_reputation = 2] the state after
    [seed(42); reset()] has reputation 2, which [reset] does not clamp. *)
Lemma reset_keeps_start_reputation :
  UserModelEnv.reset (UserModelEnv.seed (demo_new 2) 42)
  = (demo_env 2, inr (UserModelEnv.create_observation (demo_env 2)))
  /\ UserModelEnv.user_reputation (demo_env 2) = 2%Q
  /\ ~ (0 <= UserModelEnv.user_reputation (demo_env 2) <= 1)%Q.
Proof.
  split; [vm_compute; reflexivity|].
  split; [reflexivity|].
  intros [_ Hle]. vm_compute in Hle. apply Hle. reflexivity.
Defined.

(** A fresh environment and one that has been used run alike once both
    are seeded and reset. *)
Lemma seeded_runs_agree_witness :
  UserModelEnv.run (demo_new 1) 42 [3; 1; 2; 0]
  = UserModelEnv.run (UserModelEnv.steps (demo_env 1) [3; 1]).1 42
                     [3; 1; 2; 0].
Proof.
  apply seeded_runs_agree. repeat split.
Defined.

(** Task 0, inactive after its first answer, is inactive after three more
    steps. *)
Lemma inactive_stays_inactive_witness :
  exists task2,
    UserModelEnv.tasks
      (UserModelEnv.steps (demo_env 1) ([3; 1] ++ [3; 2; 1])).1 !! 0%nat
    = Some task2
    /\ Task.is_active task2
         (UserModelEnv.user_reputation
            (UserModelEnv.steps (demo_env 1) ([3; 1] ++ [3; 2; 1])).1)
       = false.
Proof.
  eapply (inactive_stays_inactive
            (UserModelEnv.seed (demo_new 1) 42) (demo_env 1) _
            [3; 1] [3; 2; 1] 0);
    vm_compute; reflexivity.
Defined.

(** Switching to task 0 from no selection: reward 0, one unit of time. *)
Lemma step_switch_spec_witness :
  UserModelEnv.step (demo_env 1) 3
  = (demo_selected,
     Returned (UserModelEnv.create_observation demo_selected) 0 false []).
Proof.
  etransitivity.
  - refine (proj2 (step_switch_spec (demo_env 1) 3 demo_fresh_task
                     _ _ _ _) demo_generator _ _).
    + vm_compute. discriminate.
    + intros Hlt. vm_compute in Hlt. discriminate.
    + exists (0%nat, demo_fresh_task). vm_compute. reflexivity.
    + vm_compute. reflexivity.
    + vm_compute. reflexivity.
    + vm_compute. reflexivity.
  - vm_compute. reflexivity.
Defined.

(** C7 fails as stated: in the state the constructor leaves, with one
    task-giver, the task list is still empty and the observation (the one
    [step(QUIT)] returns there) has 4 entries, not [5 * 1 + 4]. *)
Lemma observation_before_reset_is_short :
  UserModelEnv.num_tasks (demo_new 1) = 1
  /\ UserModelEnv.create_observation (demo_new 1) = [inject_Z (-1); -1; 10; 0]%Q
  /\ (UserModelEnv.step (demo_new 1) 0).2
     = Returned [inject_Z (-1); -1; 10; 0]%Q ((10 - 0) * 2) true
                [("end_reason", "user_quit")]%string
  /\ Z.of_nat (length (UserModelEnv.create_observation (demo_new 1)))
     <> 5 * UserModelEnv.num_tasks (demo_new 1) + 4.
Proof.
  split; [vm_compute; reflexivity|].
  split; [vm_compute; reflexivity|].
  split; [vm_compute; reflexivity|].
  vm_compute. discriminate.
Defined.

(** The observation of the one-task environment has 9 entries. *)
Lemma create_observation_spec_witness :
  Z.of_nat (length (UserModelEnv.create_observation demo_selected))
  = 5 * UserModelEnv.num_tasks demo_selected + 4.
Proof.
  refine (proj1 (create_observation_spec demo_selected _)).
  vm_compute. reflexivity.
Defined.



(** C9 fails as stated: after [seed(42); reset()] of the environment
    without task-givers no task is selected and the budget is not
    exceeded, yet both answer actions raise [IndexError] at
    [tasks[current_task_idx]]: no reward is returned and no time is
    charged. *)
Lemma answer_without_tasks_raises :
  UserModelEnv.reset
    (UserModelEnv.seed (UserModelEnv.init (demo_user 1) [] demo_settings) 42)
  = (demo_empty, inr (UserModelEnv.create_observation demo_empty))
  /\ UserModelEnv.current_task_idx demo_empty = -1
  /\ Qlt_bool (time_budget (UserModelEnv.user_properties demo_empty))
              (UserModelEnv.overall_time_spent demo_empty) = false
  /\ UserModelEnv.step demo_empty 1
     = (UserModelEnv.set_last_action (Some 1) demo_empty, Raised IndexError)
  /\ UserModelEnv.step demo_empty 2
     = (UserModelEnv.set_last_action (Some 2) demo_empty, Raised IndexError)
  /\ UserModelEnv.overall_time_spent (UserModelEnv.step demo_empty 1).1
     = UserModelEnv.overall_time_spent demo_empty.
Proof.
  split; [vm_compute; reflexivity|].
  split; [vm_compute; reflexivity|].
  split; [vm_compute; reflexivity|].
  split; [vm_compute; reflexivity|].
  split; [vm_compute; reflexivity|].
  vm_compute. reflexivity.
Defined.

(** Answering right after [reset], with no task selected. *)
Lemma step_answer_noop_witness :
  UserModelEnv.step (demo_env 1) 1
  = (UserModelEnv.set_overall_time_spent (0 + (1 # 10))%Q
       (UserModelEnv.set_last_action (Some 1) (demo_env 1)),
     Returned [1 # 2; 0; -1; -1; -1; -1; 1; 10; 0 + (1 # 10)]%Q (-1) false []).
Proof.
  etransitivity.
  - refine (proj1 (step_answer_noop (demo_env 1) 1 0 demo_fresh_task
                     (or_introl eq_refl) _ _ (or_introl _))).
    + intros Hlt. vm_compute in Hlt. discriminate.
    + vm_compute. reflexivity.
    + vm_compute. reflexivity.
  - vm_compute. reflexivity.
Defined.

(** Switching to task 0 is in the action space of the one-task
    environment and returns. *)
Lemma step_total_on_action_space_witness :
  exists obs reward done info,
    (UserModelEnv.step (demo_env 1) 3).2 = Returned obs reward done info.
Proof.
  assert (Hwf : well_formed (demo_env 1)).
  { apply (reset_well_formed (UserModelEnv.seed (demo_new 1) 42) _
             (UserModelEnv.create_observation (demo_env 1)));
      vm_compute; reflexivity. }
  refine (proj1 (proj1 (step_total_on_action_space (demo_env 1) 3 Hwf) _ _)).
  - vm_compute. split; discriminate.
  - intros [Ha | Ha]; discriminate Ha.
Defined.

(** ** Further properties on concrete runs *)

(** A completed task stays inactive when it is answered once more. *)
Lemma receive_answer_keeps_inactive_witness :
  Task.is_active (Task.receive_answer demo_completed 7).1 1 = false.
Proof.
  apply (receive_answer_keeps_inactive demo_completed 7 1).
  vm_compute. reflexivity.
Defined.

(** The second failed gold question, with [qa_false_max = 2]. *)
Lemma last_gold_failure_deactivates_witness :
  Task.qa_false_counter (Task.receive_answer demo_failed_once 3).1 = 1 + 1
  /\ Task.is_active (Task.receive_answer demo_failed_once 3).1 1 = false.
Proof.
  apply (last_gold_failure_deactivates demo_failed_once 3 (Instance_init 7) 1).
  - reflexivity.
  - reflexivity.
  - discriminate.
  - vm_compute. discriminate.
Defined.

(** The counters of task 0 after it was selected, answered and selected
    again. *)
Lemma run_counters_consistent_witness :
  exists task,
    UserModelEnv.tasks (UserModelEnv.steps (demo_env 1) [3; 1; 3]).1 !! 0%nat
    = Some task
    /\ 0 <= Task.real_instance_counter task <= Task.instance_counter task.
Proof.
  eexists. split; [vm_compute; reflexivity|].
  refine (proj1 (proj2 (run_counters_consistent
                          (UserModelEnv.seed (demo_new 1) 42) (demo_env 1)
                          (UserModelEnv.create_observation (demo_env 1))
                          [3; 1; 3] 0 _ _ _)));
    vm_compute; reflexivity.
Defined.

(** Task 0 accepted its single real answer below its target of 1. *)
Lemma run_within_caps_witness :
  exists task,
    UserModelEnv.tasks (UserModelEnv.steps (demo_env 1) [3; 1; 3]).1 !! 0%nat
    = Some task
    /\ (Task.real_instance_counter task = 0
        \/ (inject_Z (Task.real_instance_counter task - 1)
            < target_num_instances (Task.properties task))%Q).
Proof.
  eexists. split; [vm_compute; reflexivity|].
  refine (proj2 (run_within_caps
                   (UserModelEnv.seed (demo_new 1) 42) (demo_env 1)
                   (UserModelEnv.create_observation (demo_env 1))
                   [3; 1; 3] 0 _ _ _));
    vm_compute; reflexivity.
Defined.

(** Task 0 is active right after it was selected. *)
Lemma selected_task_is_active_witness :
  Task.is_active demo_posed_task
    (UserModelEnv.user_reputation (UserModelEnv.steps (demo_env 1) [3]).1)
  = true.
Proof.
  refine (proj1 (selected_task_is_active
                   (UserModelEnv.seed (demo_new 1) 42) (demo_env 1)
                   (UserModelEnv.create_observation (demo_env 1))
                   [3] 0 demo_posed_task _ _ _));
    vm_compute; reflexivity.
Defined.

(** Action 7 is outside the action space of the one-task environment:
    the step raises [IndexError], and nothing else. *)
Lemma step_raises_only_index_error_witness :
  (UserModelEnv.step (UserModelEnv.steps (demo_env 1) [3; 1]).1 7).2
  = Raised IndexError
  /\ forall x,
       (UserModelEnv.step (UserModelEnv.steps (demo_env 1) [3; 1]).1 7).2
       = Raised x ->
       x = IndexError.
Proof.
  assert (Hreset :
            UserModelEnv.reset (UserModelEnv.seed (demo_new 1) 42)
            = (demo_env 1,
               inr (UserModelEnv.create_observation (demo_env 1))))
    by (vm_compute; reflexivity).
  split; [vm_compute; reflexivity|].
  intros x. exact (step_raises_only_index_error _ _ _ [3; 1] 7 x Hreset).
Defined.

(** The slot map of the one-task environment. *)
Lemma reset_deals_a_permutation_witness :
  exists (g : Z) (indices : list nat),
    UserModelEnv.random (UserModelEnv.seed (demo_new 1) 42) = Some g
    /\ indices ≡ₚ seq 0 1
    /\ length (UserModelEnv.tasks (demo_env 1)) = 1%nat
    /\ (forall i, UserModelEnv.task_task_dist_map (demo_env 1) !! i
                  = indices !! i).
Proof.
  assert (Hreset :
            UserModelEnv.reset (UserModelEnv.seed (demo_new 1) 42)
            = (demo_env 1,
               inr (UserModelEnv.create_observation (demo_env 1))))
    by (vm_compute; reflexivity).
  destruct (reset_deals_a_permutation _ _ _ Hreset)
    as (g & indices & Hg & Hperm & Hlen & Hmap & _).
  exists g, indices. repeat split; assumption.
Defined.

(** [reset] on the environment as constructed, without [seed]. *)
Lemma reset_unseeded_witness :
  UserModelEnv.reset (demo_new 1)
  = (UserModelEnv.set_task_task_dist_map ∅
       (UserModelEnv.set_tasks [] (demo_new 1)), inl AttributeError).
Proof.
  exact (proj1 (reset_unseeded (demo_new 1) eq_refl)).
Defined.

(** A negligent answer to task 0: payout 1/2, a tenth of a time unit. *)
Lemma negligent_answer_spec_witness :
  exists obs,
    (UserModelEnv.step demo_selected 1).2 = Returned obs (1 * (1 # 2)) false []
    /\ UserModelEnv.overall_time_spent (UserModelEnv.step demo_selected 1).1
       = (0 + 1 + (1 # 10))%Q.
Proof.
  assert (H1 : ~ (time_budget (UserModelEnv.user_properties demo_selected)
                  < UserModelEnv.overall_time_spent demo_selected)%Q)
    by (intros Hlt; vm_compute in Hlt; discriminate).
  assert (H2 : py_get (UserModelEnv.tasks demo_selected)
                      (UserModelEnv.current_task_idx demo_selected)
               = Some (0%nat, demo_posed_task))
    by (vm_compute; reflexivity).
  assert (H3 : UserModelEnv.current_task_idx demo_selected <> -1)
    by (vm_compute; discriminate).
  assert (H4 : Task.is_active demo_posed_task
                 (UserModelEnv.user_reputation demo_selected) = true)
    by (vm_compute; reflexivity).
  assert (H5 : UserModelEnv.random demo_selected
               = Some demo_selected_generator)
    by (vm_compute; reflexivity).
  assert (H6 : is_Some (Task.mode demo_posed_task))
    by (eexists; vm_compute; reflexivity).
  assert (H7 : is_Some (Task.current_instance demo_posed_task))
    by (eexists; vm_compute; reflexivity).
  destruct (negligent_answer_spec demo_selected 0 demo_posed_task
              demo_selected_generator H1 H2 H3 H4 H5 H6 H7)
    as (delta & obs & _ & Hret & Htime & _).
  exists obs. split.
  - etransitivity; [exact Hret|]. vm_compute. reflexivity.
  - etransitivity; [exact Htime|]. vm_compute. reflexivity.
Defined.

(** A diligent answer to task 0: payout and interestingness, half a time
    unit of effort. *)
Lemma diligent_answer_spec_witness :
  exists obs,
    (UserModelEnv.step demo_selected 2).2
    = Returned obs (1 * (1 # 2) + 1 * ((1 # 2) - (1 # 2))) false []
    /\ UserModelEnv.overall_time_spent (UserModelEnv.step demo_selected 2).1
       = (0 + 1 + 1 * (1 # 2))%Q.
Proof.
  assert (H1 : ~ (time_budget (UserModelEnv.user_properties demo_selected)
                  < UserModelEnv.overall_time_spent demo_selected)%Q)
    by (intros Hlt; vm_compute in Hlt; discriminate).
  assert (H2 : py_get (UserModelEnv.tasks demo_selected)
                      (UserModelEnv.current_task_idx demo_selected)
               = Some (0%nat, demo_posed_task))
    by (vm_compute; reflexivity).
  assert (H3 : UserModelEnv.current_task_idx demo_selected <> -1)
    by (vm_compute; discriminate).
  assert (H4 : Task.is_active demo_posed_task
                 (UserModelEnv.user_reputation demo_selected) = true)
    by (vm_compute; reflexivity).
  assert (H5 : UserModelEnv.random demo_selected
               = Some demo_selected_generator)
    by (vm_compute; reflexivity).
  assert (H6 : is_Some (Task.mode demo_posed_task))
    by (eexists; vm_compute; reflexivity).
  assert (H7 : Task.current_instance demo_posed_task
               = Some (Instance_init 5))
    by (vm_compute; reflexivity).
  destruct (diligent_answer_spec demo_selected 0 demo_posed_task
              demo_selected_generator (Instance_init 5)
              H1 H2 H3 H4 H5 H6 H7)
    as (delta & obs & _ & Hret & Htime & _).
  exists obs. split.
  - etransitivity; [exact Hret|]. vm_compute. reflexivity.
  - etransitivity; [exact Htime|]. vm_compute. reflexivity.
Defined.

(** Answering the real question of task 0 leaves the reputation at 1. *)
Lemma reputation_moves_on_gold_only_witness :
  (UserModelEnv.user_reputation (UserModelEnv.step demo_selected 1).1
   == UserModelEnv.user_reputation demo_selected)%Q.
Proof.
  apply (reputation_moves_on_gold_only demo_selected 1).
  - vm_compute. split; discriminate.
  - right. intros k task Hget. vm_compute in Hget.
    injection Hget as _ <-. discriminate.
Defined.

(** The time spent over a run with an answer, a switch, a quit and an
    answer without a task. *)
Lemma time_never_decreases_witness :
  (UserModelEnv.overall_time_spent demo_selected
   <= UserModelEnv.overall_time_spent
        (UserModelEnv.steps demo_selected [1; 3; 0; 2]%Z).1)%Q.
Proof.
  apply (time_never_decreases demo_selected [1; 3; 0; 2]).
  repeat split; try (vm_compute; discriminate).
  vm_compute UserModelEnv.tasks.
  repeat constructor. vm_compute. discriminate.
Defined.

(** [render] prints the one-task environment and fails on the
    environment without task-givers. *)
Lemma render_needs_a_task_witness :
  (exists text, UserModelEnv.render demo_fmt (demo_env 1) "text"
                = inr (Some text))
  /\ UserModelEnv.render demo_fmt
       (UserModelEnv.reset
          (UserModelEnv.seed (UserModelEnv.init (demo_user 1) [] demo_settings)
                             42)).1 "text"
     = inl IndexError.
Proof.
  split.
  - refine (proj1 (proj2 (render_needs_a_task demo_fmt (demo_env 1) _)) _).
    + vm_compute. reflexivity.
    + vm_compute. discriminate.
  - refine (proj1 (render_needs_a_task demo_fmt _ _) _).
    + vm_compute. reflexivity.
    + vm_compute. reflexivity.
Defined.

(** The rounds field of task 0 once it is completed. *)
Lemma rounds_field_tells_activity_witness :
  UserModelEnv.create_observation
    (UserModelEnv.steps (demo_env 1) [3; 1]).1 !! 1%nat = Some (-1)%Q.
Proof.
  assert (Hreset :
            UserModelEnv.reset (UserModelEnv.seed (demo_new 1) 42)
            = (demo_env 1,
               inr (UserModelEnv.create_observation (demo_env 1))))
    by (vm_compute; reflexivity).
  refine (proj2 (proj1 (rounds_field_tells_activity _ _ _ [3; 1] 0
                          (Task.receive_answer demo_posed_task 7).1
                          Hreset _)) _).
  - vm_compute. reflexivity.
  - vm_compute. reflexivity.
Defined.

(** A run of five valid actions returns five tuples. *)
Lemma valid_runs_return_witness :
  Forall (fun o => exists obs reward done info,
                     o = Returned obs reward done info)
         (UserModelEnv.steps (demo_env 1) [3; 1; 2; 3; 0]).2.
Proof.
  assert (Hreset :
            UserModelEnv.reset (UserModelEnv.seed (demo_new 1) 42)
            = (demo_env 1,
               inr (UserModelEnv.create_observation (demo_env 1))))
    by (vm_compute; reflexivity).
  assert (Hnum :
            UserModelEnv.num_tasks (UserModelEnv.seed (demo_new 1) 42)
            = Z.of_nat
                (length (UserModelEnv.tasks_properties_distributions
                           (UserModelEnv.seed (demo_new 1) 42))))
    by reflexivity.
  assert (Hpos : 1 <= UserModelEnv.num_tasks
                        (UserModelEnv.seed (demo_new 1) 42))
    by (vm_compute; discriminate).
  apply (valid_runs_return _ _ _ [3; 1; 2; 3; 0] Hnum Hpos Hreset).
  repeat constructor; vm_compute; discriminate.
Defined.

(** Every observation of a run of the one-task environment lies in the
    declared space. *)
Lemma observations_in_declared_space_witness :
  in_observation_space 1
    (UserModelEnv.create_observation
       (UserModelEnv.steps (demo_env 1) [3; 1; 2; 3; 0]).1).
Proof.
  assert (Hreset :
            UserModelEnv.reset (UserModelEnv.seed (demo_new 1) 42)
            = (demo_env 1,
               inr (UserModelEnv.create_observation (demo_env 1))))
    by (vm_compute; reflexivity).
  assert (Hprops : Forall properties_in_range
                          (UserModelEnv.tasks (demo_env 1))).
  { vm_compute UserModelEnv.tasks. repeat constructor; vm_compute;
      discriminate. }
  assert (Hvalid :
            Forall (fun a =>
                      a <= UserModelEnv.num_tasks
                             (UserModelEnv.seed (demo_new 1) 42) + 2)
                   [3; 1; 2; 3; 0]).
  { repeat constructor; vm_compute; discriminate. }
  refine (observations_in_declared_space _ _ _ [3; 1; 2; 3; 0]
            _ Hreset _ _ _ _ _ Hprops Hvalid).
  - reflexivity.
  - split; vm_compute; discriminate.
  - vm_compute; discriminate.
  - vm_compute; discriminate.
  - vm_compute; discriminate.
  - vm_compute; discriminate.
Defined.
